(** * dbt-core: relation stubs, the materialization factory, freshness thresholds

    A shallow embedding of
    - [core/dbt/contracts/graph/unparsed.py] ([Time], [FreshnessThreshold],
      [ExternalTable]),
    - [core/dbt/adapters/relation/models/_relation_stub.py],
    - [core/dbt/adapters/materialization/factory.py],
    followed by the properties that the specification states about them.

    Python features are modelled as follows.
    - An exception is a value of [Py.exn]; code that may raise returns a
      [Py.Result].
    - A [dict] with string keys is a [gmap string _]; a value whose type Python
      does not fix (the entries of a configuration dict) is a [Py.value].
    - [Optional[T]] is [option T]; [x is None] is a match on the option.
    - A [float] is a primitive binary64 [float]; an [int] is a [Z]. *)

From Stdlib Require Import ZArith Bool.
From Stdlib Require Import Floats.PrimFloat Numbers.Cyclic.Int63.Uint63.
From Stdlib Require Import Floats.SpecFloat Floats.FloatOps Floats.FloatAxioms.
From stdpp Require Import gmap strings.

(** ** The fragment of the Python runtime that the sources rely on *)

Module Py.

(** The exception classes that the modelled code can raise.  [KeyError] is what
    [d[k]] raises on a dict without [k]; [TypeError] what subscripting a
    non-subscriptable object raises; [AssertionError] what a failed [assert]
    raises; [OverflowError] what [datetime.timedelta] raises out of range;
    [FrozenInstanceError] what a frozen dataclass raises on attribute
    assignment or deletion; [AttributeError] what reaching for an attribute
    that is not there raises.  [ConstructionError] is the error kind that the
    specification names for constructors from dicts; the base relation
    classes, which are not part of the modelled sources, are free to raise
    it. *)
Inductive exn :=
  | KeyError (key : string)
  | TypeError
  | AssertionError
  | OverflowError
  | FrozenInstanceError (name : string)
  | AttributeError (name : string)
  | ConstructionError.

Inductive Result (A : Type) :=
  | Ok (a : A)
  | Raise (e : exn).

Arguments Ok {A} a.
Arguments Raise {A} e.

#[global] Instance Result_ret : MRet Result := fun A a => Ok a.

#[global] Instance Result_bind : MBind Result := fun A B k m =>
  match m with
  | Ok a => k a
  | Raise e => Raise e
  end.

#[global] Instance Result_fmap : FMap Result := fun A B f m =>
  match m with
  | Ok a => Ok (f a)
  | Raise e => Raise e
  end.

(** [assert cond] *)
Definition assert_ (cond : bool) : Result unit :=
  if cond then Ok tt else Raise AssertionError.

(** Python objects as they occur in configuration dicts.  [VObject] stands for
    an instance of a class without [__getitem__] (a [RenderPolicy], say), known
    by its identity only. *)
#[warnings="-register-all"] Inductive value :=
  | VNone
  | VBool (b : bool)
  | VInt (z : Z)
  | VStr (s : string)
  | VObject (addr : positive)
  | VDict (d : gmap string value).

(** [obj[key]] for a string [key]. *)
Definition getitem (obj : value) (key : string) : Result value :=
  match obj with
  | VDict d =>
      match d !! key with
      | Some v => Ok v
      | None => Raise (KeyError key)
      end
  | VNone | VBool _ | VInt _ | VStr _ | VObject _ => Raise TypeError
  end.

(** [x is not None] *)
Definition is_not_None {A} (x : option A) : bool :=
  match x with
  | None => false
  | Some _ => true
  end.

(** [bool(x)] for [x : Optional[T]], given [T.__bool__]. *)
Definition bool_optional {A} (bool_A : A → bool) (x : option A) : bool :=
  match x with
  | None => false
  | Some a => bool_A a
  end.

(** [float(n)] for an [int] of magnitude below [2^53] (exact). *)
Definition float_of_int (n : Z) : float :=
  if (n <? 0)%Z then PrimFloat.opp (PrimFloat.of_uint63 (Uint63.of_Z (- n)))
  else PrimFloat.of_uint63 (Uint63.of_Z n).

(** The number of seconds in one unit of a [timedelta] keyword argument. *)
Definition timedelta_unit (kw : string) : option Z :=
  if String.eqb kw "weeks" then Some 604800%Z
  else if String.eqb kw "days" then Some 86400%Z
  else if String.eqb kw "hours" then Some 3600%Z
  else if String.eqb kw "minutes" then Some 60%Z
  else if String.eqb kw "seconds" then Some 1%Z
  else None.

(** [total_seconds()] of a [timedelta] built from the single keyword
    argument [kw = n], for an [int] [n], as a whole number of seconds.
    [timedelta] rejects an unknown keyword with [TypeError] and a normalised
    day count of magnitude above 999999999 with [OverflowError]. *)
Definition timedelta_total_seconds (kw : string) (n : Z) : Result Z :=
  match timedelta_unit kw with
  | None => Raise TypeError
  | Some u =>
      let seconds := (n * u)%Z in
      let days := (seconds `div` 86400)%Z in
      if ((-999999999 <=? days) && (days <=? 999999999))%Z
      then Ok seconds
      else Raise OverflowError
  end.

End Py.

Import Py.

(** ** [core/dbt/contracts/graph/unparsed.py] *)

Module TimePeriod.

Inductive t := minute | hour | day.

(** The string value of the [StrEnum] member, which is also [str(self)]. *)
Definition value (self : t) : string :=
  match self with
  | minute => "minute"
  | hour => "hour"
  | day => "day"
  end.

Definition plural (self : t) : string := value self +:+ "s".

End TimePeriod.

Module Time.

Record t := Build {
  count : option Z;
  period : option TimePeriod.t;
}.

(** [Time()] *)
Definition default : t := {| count := None; period := None |}.

Definition exceeded (self : t) (actual_age : float) : Result bool :=
  match period self, count self with
  | None, _ | _, None => Ok false
  | Some p, Some c =>
      difference ← timedelta_total_seconds (TimePeriod.plural p) c;
      Ok (PrimFloat.ltb (float_of_int difference) actual_age)
  end.

Definition __bool__ (self : t) : bool :=
  is_not_None (count self) && is_not_None (period self).

End Time.

(** [dbt.contracts.results.FreshnessStatus] is imported by [status]; these are
    the three members that [status] returns. *)
Module FreshnessStatus.

Inductive t := Pass | Warn | Error.

End FreshnessStatus.

Module FreshnessThreshold.

Record t := Build {
  warn_after : option Time.t;
  error_after : option Time.t;
  filter : option string;
}.

(** [FreshnessThreshold()]: both [Time] fields come from [default_factory=Time]. *)
Definition default : t :=
  {| warn_after := Some Time.default;
     error_after := Some Time.default;
     filter := None |}.

(** [x and x.exceeded(age)], by its truth value: [exceeded] runs only when
    [x] is truthy. *)
Definition and_exceeded (x : option Time.t) (age : float) : Result bool :=
  match x with
  | None => Ok false
  | Some time => if Time.__bool__ time then Time.exceeded time age else Ok false
  end.

Definition status (self : t) (age : float) : Result FreshnessStatus.t :=
  is_error ← and_exceeded (error_after self) age;
  if is_error : bool then Ok FreshnessStatus.Error
  else
    is_warn ← and_exceeded (warn_after self) age;
    if is_warn : bool then Ok FreshnessStatus.Warn
    else Ok FreshnessStatus.Pass.

Definition __bool__ (self : t) : bool :=
  bool_optional Time.__bool__ (warn_after self)
  || bool_optional Time.__bool__ (error_after self).

End FreshnessThreshold.

Module ExternalPartition.

Record t := Build {
  name : string;
  description : string;
  data_type : string;
  meta : gmap string value;
  _extra : gmap string value;
}.

End ExternalPartition.

Module ExternalTable.

Record t := Build {
  location : option string;
  file_format : option string;
  row_format : option string;
  tbl_properties : option string;
  partitions : option (list string + list ExternalPartition.t);
  _extra : gmap string value;
}.

Definition __bool__ (self : t) : bool := is_not_None (location self).

End ExternalTable.

(** ** [core/dbt/adapters/relation/models/_relation_stub.py] *)

(** The classes that the module defines and their bases, and the factory class
    of [factory.py]. *)
Inductive PyClass :=
  | DatabaseRelation_cls
  | SchemaRelation_cls
  | Relation_cls
  | DatabaseRelationStub_cls
  | SchemaRelationStub_cls
  | RelationStub_cls
  | MaterializationFactory_cls.

#[global] Instance PyClass_eq_dec : EqDecision PyClass.
Proof. solve_decision. Defined.

(** The base named in each [class] statement. *)
Definition base (c : PyClass) : option PyClass :=
  match c with
  | DatabaseRelationStub_cls => Some DatabaseRelation_cls
  | SchemaRelationStub_cls => Some SchemaRelation_cls
  | RelationStub_cls => Some Relation_cls
  | DatabaseRelation_cls | SchemaRelation_cls | Relation_cls
  | MaterializationFactory_cls => None
  end.

Definition issubclass (c d : PyClass) : bool :=
  bool_decide (c = d) || bool_decide (base c = Some d).

(** An instance of [DatabaseRelation] or of a subclass of it; [type_self] is the
    class it was constructed from.  The fields are the keyword arguments that
    [DatabaseRelationStub.from_dict] passes to the constructor. *)
Module DatabaseRelation.

Record t := Build {
  type_self : PyClass;
  name : value;
  render : value;
}.

(** [DatabaseRelation.from_dict], the constructor of the base class.  Its code
    is not among the modelled sources; developments below take it as given. *)
Class FromDict := from_dict : value → Result t.

End DatabaseRelation.

Module DatabaseRelationStub.

Definition from_dict (config_dict : value) : Result DatabaseRelation.t :=
  name ← getitem config_dict "name";
  render ← getitem config_dict "render";
  let database_stub :=
    {| DatabaseRelation.type_self := DatabaseRelationStub_cls;
       DatabaseRelation.name := name;
       DatabaseRelation.render := render |} in
  _ ← assert_ (issubclass (DatabaseRelation.type_self database_stub)
                 DatabaseRelationStub_cls);
  Ok database_stub.

Definition parse_model_node {ModelNode : Type} (model_node : ModelNode)
  : gmap string value := ∅.

Definition parse_describe_relation_results {DescribeRelationResults : Type}
  (describe_relation_results : DescribeRelationResults)
  : gmap string value := ∅.

End DatabaseRelationStub.

Module SchemaRelationStub.

Record t := Build {
  type_self : PyClass;
  name : value;
  database : DatabaseRelation.t;
  render : value;
  DatabaseParser : PyClass;
}.

Definition from_dict `{!DatabaseRelation.FromDict} (config_dict : value)
  : Result t :=
  name ← getitem config_dict "name";
  database_dict ← getitem config_dict "database";
  database ← DatabaseRelation.from_dict database_dict;
  render ← getitem config_dict "render";
  let schema_stub :=
    {| type_self := SchemaRelationStub_cls;
       name := name;
       database := database;
       render := render;
       DatabaseParser := DatabaseRelationStub_cls |} in
  _ ← assert_ (issubclass (type_self schema_stub) SchemaRelationStub_cls);
  Ok schema_stub.

Definition parse_model_node {ModelNode : Type} (model_node : ModelNode)
  : gmap string value := ∅.

Definition parse_describe_relation_results {DescribeRelationResults : Type}
  (describe_relation_results : DescribeRelationResults)
  : gmap string value := ∅.

End SchemaRelationStub.

Module RelationStub.

Record t := Build {
  type_self : PyClass;
  name : value;
  schema : SchemaRelationStub.t;
  render : value;
  type : value;
  can_be_renamed : value;
  SchemaParser : PyClass;
}.

Definition from_dict `{!DatabaseRelation.FromDict} (config_dict : value)
  : Result t :=
  name ← getitem config_dict "name";
  schema_dict ← getitem config_dict "schema";
  schema ← SchemaRelationStub.from_dict schema_dict;
  render ← getitem config_dict "render";
  type ← getitem config_dict "type";
  can_be_renamed ← getitem config_dict "can_be_renamed";
  let relation_stub :=
    {| type_self := RelationStub_cls;
       name := name;
       schema := schema;
       render := render;
       type := type;
       can_be_renamed := can_be_renamed;
       SchemaParser := SchemaRelationStub_cls |} in
  _ ← assert_ (issubclass (type_self relation_stub) RelationStub_cls);
  Ok relation_stub.

Definition parse_model_node {ModelNode : Type} (model_node : ModelNode)
  : gmap string value := ∅.

Definition parse_describe_relation_results {DescribeRelationResults : Type}
  (describe_relation_results : DescribeRelationResults)
  : gmap string value := ∅.

End RelationStub.

(** ** [core/dbt/adapters/materialization/factory.py] *)

(** Modelled from the spec: the members of [models.MaterializationType], whose
    declaration is not among the modelled sources ("currently:
    MaterializedView; extensible to Table, View, Incremental, Snapshot"). *)
Module MaterializationType.

Inductive t := MaterializedView | Table | View | Incremental | Snapshot.

#[global] Instance eq_dec : EqDecision t.
Proof. solve_decision. Defined.

Definition to_nat (x : t) : nat :=
  match x with
  | MaterializedView => 0
  | Table => 1
  | View => 2
  | Incremental => 3
  | Snapshot => 4
  end.

Definition of_nat (n : nat) : option t :=
  match n with
  | 0 => Some MaterializedView
  | 1 => Some Table
  | 2 => Some View
  | 3 => Some Incremental
  | 4 => Some Snapshot
  | _ => None
  end.

#[global] Instance countable : Countable t.
Proof. apply (inj_countable to_nat of_nat). by intros []. Defined.

End MaterializationType.

Module MaterializationFactory.

Section factory.

(** The classes of the collaborators, none of which the factory inspects. *)
Context {RuntimeConfig RelationFactory Materialization : Type}.

(** A subclass of [models.Materialization] as the factory sees it: a class
    object (always truthy) with the classmethod [from_runtime_config]. *)
Record MaterializationClass := {
  from_runtime_config :
    RuntimeConfig → RelationFactory → option RelationStub.t →
    Result Materialization;
}.

(** The attributes of a factory instance. *)
Record t := Build {
  relation_factory : option RelationFactory;
  materialization_map : gmap MaterializationType.t MaterializationClass;
}.

(** [models.MaterializedViewMaterialization] *)
Context (MaterializedViewMaterialization : MaterializationClass).

(** [__init__]: an omitted argument is [None]; [x or default] takes the default
    for [None] and for the empty dict. *)
Definition __init__ (relation_factory : option RelationFactory)
  (materialization_map :
     option (gmap MaterializationType.t MaterializationClass)) : t :=
  {| relation_factory := relation_factory;
     materialization_map :=
       match materialization_map with
       | Some m =>
           if Nat.eqb (size m) 0
           then {[ MaterializationType.MaterializedView :=
                     MaterializedViewMaterialization ]}
           else m
       | None =>
           {[ MaterializationType.MaterializedView :=
                MaterializedViewMaterialization ]}
       end |}.

(** A method of the factory: it receives [self], may raise, and leaves [self]
    in some state. *)
Definition method (A : Type) : Type := t → Result A * t.

Definition ret {A} (a : A) : method A := fun self => (Ok a, self).

Definition raise {A} (e : exn) : method A := fun self => (Raise e, self).

Definition bind {A B} (m : method A) (k : A → method B) : method B :=
  fun self =>
    match m self with
    | (Ok a, self') => k a self'
    | (Raise e, self') => (Raise e, self')
    end.

(** [self.attr] *)
Definition getattr {A} (attr : t → A) : method A :=
  fun self => (Ok (attr self), self).

(** A call that does not receive [self]. *)
Definition call {A} (r : Result A) : method A := fun self => (r, self).

Definition _get_parser (materialization_type : MaterializationType.t)
  : method (option MaterializationClass) :=
  bind (getattr materialization_map) (fun map =>
  ret (map !! materialization_type)).

Definition make_from_runtime_config (runtime_config : RuntimeConfig)
  (materialization_type : MaterializationType.t)
  (existing_relation_stub : option RelationStub.t)
  : method (option Materialization) :=
  bind (_get_parser materialization_type) (fun parser =>
  match parser with
  | Some parser =>
      bind (getattr relation_factory) (fun relation_factory =>
      match relation_factory with
      | None => raise AssertionError
      | Some relation_factory =>
          bind (call (from_runtime_config parser runtime_config
                        relation_factory existing_relation_stub))
            (fun materialization => ret (Some materialization))
      end)
  | None => ret None
  end).

End factory.

Arguments MaterializationClass : clear implicits.
Arguments t : clear implicits.

End MaterializationFactory.

(** ** Concrete collaborators, for evaluating the model *)

(** Modelled from the spec: [DatabaseRelation.from_dict], whose code is not
    among the modelled sources.  A [DatabaseRelation] has the attributes [name]
    and [render]; [fromDict] fails with a [ConstructionError] if a required key
    is absent. *)
Definition spec_DatabaseRelation_from_dict : DatabaseRelation.FromDict :=
  fun config_dict =>
    match config_dict with
    | VDict d =>
        match d !! "name", d !! "render" with
        | Some name, Some render =>
            Ok {| DatabaseRelation.type_self := DatabaseRelation_cls;
                  DatabaseRelation.name := name;
                  DatabaseRelation.render := render |}
        | _, _ => Raise ConstructionError
        end
    | _ => Raise ConstructionError
    end.

(** A configuration dict of the documented shape, with one render policy object
    shared by the three levels. *)
Definition example_database_dict : gmap string value :=
  {[ "name" := VStr "analytics"; "render" := VObject 1 ]}.

Definition example_schema_dict : gmap string value :=
  {[ "name" := VStr "public";
     "database" := VDict example_database_dict;
     "render" := VObject 1 ]}.

Definition example_relation_dict : gmap string value :=
  {[ "name" := VStr "mv1";
     "schema" := VDict example_schema_dict;
     "render" := VObject 1;
     "type" := VStr "materialized_view";
     "can_be_renamed" := VBool true ]}.

(** A strategy class over unit collaborators whose materialization is the name
    of the plan: "create" without an existing relation, "replace" with one. *)
Definition example_strategy
  : MaterializationFactory.MaterializationClass unit unit string :=
  {| MaterializationFactory.from_runtime_config := fun _ _ stub =>
       match stub with
       | None => Ok "create"
       | Some _ => Ok "replace"
       end |}.

(** ** More of [core/dbt/contracts/graph/unparsed.py] *)

(** The values of parsed YAML and of serialized objects: as [Py.value], with
    lists and without opaque objects. *)
#[warnings="-register-all"] Inductive raw :=
  | RNone
  | RBool (b : bool)
  | RInt (z : Z)
  | RStr (s : string)
  | RList (l : list raw)
  | RDict (d : gmap string raw).

(** [obj[key]] for a string [key]: a list wants an integer index. *)
Definition raw_getitem (obj : raw) (key : string) : Result raw :=
  match obj with
  | RDict d =>
      match d !! key with
      | Some v => Ok v
      | None => Raise (KeyError key)
      end
  | RNone | RBool _ | RInt _ | RStr _ | RList _ => Raise TypeError
  end.

(** [x == key] for a string [key]. *)
Definition raw_eq_str (x : raw) (key : string) : bool :=
  match x with
  | RStr s => String.eqb s key
  | _ => false
  end.

(** [key in container] for a string [key]: a substring test on a [str], a
    membership test on a [list], a key test on a [dict]; the other values are
    not containers. *)
Definition raw_contains (key : string) (container : raw) : Result bool :=
  match container with
  | RStr s => Ok (bool_decide (is_Some (String.index 0 key s)))
  | RList l => Ok (existsb (fun x => raw_eq_str x key) l)
  | RDict d => Ok (bool_decide (is_Some (d !! key)))
  | RNone | RBool _ | RInt _ => Raise TypeError
  end.

(** Exceptions beyond the built-in ones above: [ValueError], and the two
    classes that the module imports from [dbt.exceptions].  A message is kept
    as its template together with the value that the f-string interpolates. *)
Module Dbt.

Inductive message :=
  | metric_missing_entity (name : raw)
  | metric_derived_with_entity (name : raw)
  | metric_improper_entity_reference (name : raw)
  | entity_improper_ref (name : raw)
  | entity_identifier_without_name (name : raw).

Inductive error :=
  | Builtin (e : exn)
  | ValueError
  | CompilationError (msg : message)
  | ParsingError (msg : message).

Inductive Outcome (A : Type) :=
  | Return (a : A)
  | Throw (e : error).

Arguments Return {A} a.
Arguments Throw {A} e.

#[global] Instance Outcome_ret : MRet Outcome := fun A a => Return a.

#[global] Instance Outcome_bind : MBind Outcome := fun A B k m =>
  match m with
  | Return a => k a
  | Throw e => Throw e
  end.

#[global] Instance Outcome_fmap : FMap Outcome := fun A B f m =>
  match m with
  | Return a => Return (f a)
  | Throw e => Throw e
  end.

(** A computation that raises built-in exceptions only. *)
Definition lift {A} (r : Result A) : Outcome A :=
  match r with
  | Ok a => Return a
  | Raise e => Throw (Builtin e)
  end.

(** The items that iterating over a [str] yields: its characters, each a
    [str] of length one. *)
Definition iter_str (s : string) : list string :=
  (fun c => String c EmptyString) <$> String.list_ascii_of_string s.

(** [for key in remove_keys: if key in dct: del dct[key]] *)
Definition delete_keys (remove_keys : list string) (dct : gmap string raw)
  : gmap string raw :=
  foldl (fun dct key =>
           if bool_decide (is_Some (dct !! key)) then delete key dct else dct)
    dct remove_keys.

End Dbt.

Import Dbt.

(** [raw_code] is kept as its sequence of code points, since [strip] works on
    characters. *)
Module HasCode.

Record t := Build {
  raw_code : list N;
  language : string;
}.

Section strip.

(** Whether a code point is whitespace for [str.strip]; the table is
    CPython's. *)
Context (isspace : N → bool).

Fixpoint lstrip (s : list N) : list N :=
  match s with
  | [] => []
  | c :: rest => if isspace c then lstrip rest else s
  end.

Definition rstrip (s : list N) : list N := reverse (lstrip (reverse s)).

(** [s.strip()] *)
Definition strip (s : list N) : list N := rstrip (lstrip s).

(** The property [empty]: [not self.raw_code.strip()]. *)
Definition empty (self : t) : bool :=
  match strip (raw_code self) with
  | [] => true
  | _ :: _ => false
  end.

End strip.

End HasCode.

Module Docs.

Record t := Build {
  show : bool;
  node_color : option string;
}.

End Docs.

Module Quoting.

Record t := Build {
  database : option bool;
  schema : option bool;
  identifier : option bool;
  column : option bool;
}.

End Quoting.

(** [HasTests], with the fields of [HasDocs], and [quote] and [tags]. *)
Module UnparsedColumn.

Record t := Build {
  name : string;
  description : string;
  meta : gmap string raw;
  data_type : option string;
  docs : Docs.t;
  _extra : gmap string raw;
  tests : option (list (gmap string raw + string));
  quote : option bool;
  tags : list string;
}.

End UnparsedColumn.

Module UnparsedSourceTableDefinition.

Record t := Build {
  name : string;
  description : string;
  meta : gmap string raw;
  data_type : option string;
  docs : Docs.t;
  _extra : gmap string raw;
  tests : option (list (gmap string raw + string));
  columns : list UnparsedColumn.t;
  config : gmap string raw;
  loaded_at_field : option string;
  identifier : option string;
  quoting : Quoting.t;
  freshness : option FreshnessThreshold.t;
  external : option ExternalTable.t;
  tags : list string;
}.

(** [super().__post_serialize__], inherited from [dbtClassMixin], whose code is
    not among the modelled sources. *)
Class SuperPostSerialize :=
  super_post_serialize : t → gmap string raw → gmap string raw.

Definition __post_serialize__ `{!SuperPostSerialize} (self : t)
  (dct : gmap string raw) : gmap string raw :=
  let dct := super_post_serialize self dct in
  if negb (bool_decide (is_Some (dct !! "freshness")))
     && negb (is_not_None (freshness self))
  then <["freshness" := RNone]> dct
  else dct.

End UnparsedSourceTableDefinition.

Module UnparsedSourceDefinition.

Record t := Build {
  name : string;
  description : string;
  meta : gmap string raw;
  database : option string;
  schema : option string;
  loader : string;
  quoting : Quoting.t;
  freshness : option FreshnessThreshold.t;
  loaded_at_field : option string;
  tables : list UnparsedSourceTableDefinition.t;
  tags : list string;
  config : gmap string raw;
}.

Definition yaml_key (self : t) : string := "sources".

Class SuperPostSerialize :=
  super_post_serialize : t → gmap string raw → gmap string raw.

Definition __post_serialize__ `{!SuperPostSerialize} (self : t)
  (dct : gmap string raw) : gmap string raw :=
  let dct := super_post_serialize self dct in
  if negb (bool_decide (is_Some (dct !! "freshness")))
     && negb (is_not_None (freshness self))
  then <["freshness" := RNone]> dct
  else dct.

End UnparsedSourceDefinition.

Module SourceTablePatch.

Record t := Build {
  name : string;
  description : option string;
  meta : option (gmap string raw);
  data_type : option string;
  docs : option Docs.t;
  loaded_at_field : option string;
  identifier : option string;
  quoting : Quoting.t;
  freshness : option FreshnessThreshold.t;
  external : option ExternalTable.t;
  tags : option (list string);
  tests : option (list (gmap string raw + string));
  columns : option (list UnparsedColumn.t);
}.

(** [self.to_dict(omit_none=True)], generated by [dbtClassMixin], whose code is
    not among the modelled sources. *)
Class ToDict := to_dict_omit_none : t → gmap string raw.

(** [remove_keys] is the [str] ["name"], so the loop runs over its
    characters. *)
Definition to_patch_dict `{!ToDict} (self : t) : gmap string raw :=
  let dct := to_dict_omit_none self in
  let remove_keys := "name" in
  let dct := delete_keys (iter_str remove_keys) dct in
  if is_not_None (freshness self) then dct
  else <["freshness" := RNone]> dct.

End SourceTablePatch.

Module SourcePatch.

Record t := Build {
  name : string;
  overrides : string;
  path : string;
  config : gmap string raw;
  description : option string;
  meta : option (gmap string raw);
  database : option string;
  schema : option string;
  loader : option string;
  quoting : option Quoting.t;
  freshness : option FreshnessThreshold.t;
  loaded_at_field : option string;
  tables : option (list SourceTablePatch.t);
  tags : option (list string);
}.

Class ToDict := to_dict_omit_none : t → gmap string raw.

Definition to_patch_dict `{!ToDict} (self : t) : gmap string raw :=
  let dct := to_dict_omit_none self in
  let remove_keys := ["name"; "overrides"; "tables"; "path"] in
  let dct := delete_keys remove_keys dct in
  if is_not_None (freshness self) then dct
  else <["freshness" := RNone]> dct.

(** The loop returns at the first table of that name. *)
Fixpoint first_named (name : string) (tables : list SourceTablePatch.t)
  : option SourceTablePatch.t :=
  match tables with
  | [] => None
  | table :: rest =>
      if String.eqb (SourceTablePatch.name table) name then Some table
      else first_named name rest
  end.

Definition get_table_named (self : t) (name : string)
  : option SourceTablePatch.t :=
  match tables self with
  | Some tables => first_named name tables
  | None => None
  end.

End SourcePatch.

Module Maturity.

Inductive t := low | medium | high.

Definition value (self : t) : string :=
  match self with
  | low => "low"
  | medium => "medium"
  | high => "high"
  end.

(** [a == b] on members: the equality of [str], on their values. *)
Definition eq (a b : t) : bool := String.eqb (value a) (value b).

(** The right operand of a comparison: a member, or any other object. *)
Inductive operand :=
  | Member (m : t)
  | Other (v : raw).

(** What a rich comparison method returns. *)
Inductive rich :=
  | NotImplemented
  | Bool (b : bool).

(** [order.index(x)] *)
Fixpoint index (x : t) (order : list t) : Outcome nat :=
  match order with
  | [] => Throw ValueError
  | item :: rest => if eq item x then Return 0 else S <$> index x rest
  end.

Definition order : list t := [low; medium; high].

(** The body of [__lt__] past the [isinstance] test, which is also what
    [self < other] evaluates to in the other three methods. *)
Definition lt (self other : t) : Outcome bool :=
  i ← index self order;
  j ← index other order;
  Return (i <? j).

Definition __lt__ (self : t) (other : operand) : Outcome rich :=
  match other with
  | Other _ => Return NotImplemented
  | Member other => Bool <$> lt self other
  end.

Definition __gt__ (self : t) (other : operand) : Outcome rich :=
  match other with
  | Other _ => Return NotImplemented
  | Member other =>
      if negb (eq self other)
      then Bool <$> (negb <$> lt self other)
      else Return (Bool false)
  end.

Definition __ge__ (self : t) (other : operand) : Outcome rich :=
  match other with
  | Other _ => Return NotImplemented
  | Member other =>
      if eq self other then Return (Bool true)
      else Bool <$> (negb <$> lt self other)
  end.

Definition __le__ (self : t) (other : operand) : Outcome rich :=
  match other with
  | Other _ => Return NotImplemented
  | Member other =>
      if eq self other then Return (Bool true)
      else Bool <$> lt self other
  end.

End Maturity.

Module UnparsedMetric.

Section validate.

(** [super().validate(data)], the schema validation of [dbtClassMixin], and the
    test [x == MetricType.DERIVED]; neither [dbtClassMixin] nor [MetricType] is
    among the modelled sources. *)
Context (super_validate : raw → Outcome unit) (eq_DERIVED : raw → bool).

Definition validate (data : raw) : Outcome unit :=
  _ ← super_validate data;
  has_entity ← lift (raw_contains "entity" data);
  if negb has_entity then
    type ← lift (raw_getitem data "type");
    if negb (eq_DERIVED type) then
      name ← lift (raw_getitem data "name");
      Throw (CompilationError (metric_missing_entity name))
    else Return tt
  else
    has_entity ← lift (raw_contains "entity" data);
    if has_entity : bool then
      type ← lift (raw_getitem data "type");
      if eq_DERIVED type then
        name ← lift (raw_getitem data "name");
        Throw (CompilationError (metric_derived_with_entity name))
      else
        entity ← lift (raw_getitem data "entity");
        is_reference ← lift (raw_contains "entity('" entity);
        if negb is_reference then
          name ← lift (raw_getitem data "name");
          Throw (ParsingError (metric_improper_entity_reference name))
        else Return tt
    else Return tt.

End validate.

End UnparsedMetric.

Module UnparsedEntity.

(** [x.get(key) is None] for a dict [x]: no entry, or the entry [None]. *)
Definition get_is_None (d : gmap string raw) (key : string) : bool :=
  match d !! key with
  | None | Some RNone => true
  | Some _ => false
  end.

(** The body of the loop over the identifiers: what it makes of one
    identifier.  The entry is set in place, in the dict that is an item of the
    list. *)
Definition set_entity (data identifier : raw) : Outcome raw :=
  match identifier with
  | RDict d =>
      if get_is_None d "entity" then
        match d !! "name" with
        | None =>
            name ← lift (raw_getitem data "name");
            Throw (ParsingError (entity_identifier_without_name name))
        | Some name => Return (RDict (<["entity" := name]> d))
        end
      else Return identifier
  | RNone | RBool _ | RInt _ | RStr _ | RList _ =>
      Throw (Builtin (AttributeError "get"))
  end.

(** The loop over a list of identifiers: how it ends and the list as it
    leaves it.  An exception leaves the identifiers before it as the loop has
    set them and the rest as they were. *)
Fixpoint set_entities (data : raw) (identifiers : list raw)
  : Outcome unit * list raw :=
  match identifiers with
  | [] => (Return tt, [])
  | identifier :: rest =>
      match set_entity data identifier with
      | Return identifier' =>
          let (outcome, rest') := set_entities data rest in
          (outcome, identifier' :: rest')
      | Throw e => (Throw e, identifiers)
      end
  end.

Section validate.

(** [super().validate(data)], the schema validation of [dbtClassMixin], which
    is not among the modelled sources; it reads [data] only. *)
Context (super_validate : raw → Outcome unit).

(** The test of the [model] entry. *)
Definition check_model (data : raw) : Outcome unit :=
  model ← lift (raw_getitem data "model");
  is_ref ← lift (raw_contains "ref('" model);
  if negb is_ref then
    name ← lift (raw_getitem data "name");
    Throw (ParsingError (entity_improper_ref name))
  else Return tt.

(** [validate]: how it ends, and [data] as it leaves it.  The items of a
    [str] and of a [dict] are strings, which have no [get].  A subscript
    succeeds on a dict only, so the last case does not arise.

    [data] is a tree of values.  That two entries of [data] may be one and the
    same dict object, as after a YAML alias, is not represented: the second
    component tells how the identifiers are left, and of the other entries
    only what they are when they share no dict with an identifier. *)
Definition validate (data : raw) : Outcome unit * raw :=
  match super_validate data ≫= (fun _ => check_model data) with
  | Throw e => (Throw e, data)
  | Return _ =>
      match data, raw_getitem data "identifiers" with
      | _, Raise e => (Throw (Builtin e), data)
      | RDict d, Ok (RList identifiers) =>
          let (outcome, identifiers') := set_entities data identifiers in
          (outcome, RDict (<["identifiers" := RList identifiers']> d))
      | _, Ok (RStr s) =>
          if String.eqb s "" then (Return tt, data)
          else (Throw (Builtin (AttributeError "get")), data)
      | _, Ok (RDict keys) =>
          if Nat.eqb (size keys) 0 then (Return tt, data)
          else (Throw (Builtin (AttributeError "get")), data)
      | _, Ok (RNone | RBool _ | RInt _) => (Throw (Builtin TypeError), data)
      | _, Ok (RList _) => (Throw (Builtin TypeError), data)
      end
  end.

End validate.

End UnparsedEntity.

(** ** Concrete collaborators for the further code *)

(** A schema validation that accepts every dict, and the comparison with
    [MetricType.DERIVED] for a [MetricType] whose member [DERIVED] is the
    string "derived". *)
Definition example_super_validate (data : raw) : Outcome unit := Return tt.

Definition example_eq_DERIVED (x : raw) : bool :=
  match x with
  | RStr s => String.eqb s "derived"
  | _ => false
  end.

Definition example_metric : gmap string raw :=
  {[ "name" := RStr "revenue";
     "type" := RStr "measure_proxy";
     "entity" := RStr "entity('orders')" ]}.

(** Warn after ten minutes, error after one day. *)
Definition example_threshold : FreshnessThreshold.t :=
  {| FreshnessThreshold.warn_after :=
       Some {| Time.count := Some 10%Z; Time.period := Some TimePeriod.minute |};
     FreshnessThreshold.error_after :=
       Some {| Time.count := Some 1%Z; Time.period := Some TimePeriod.day |};
     FreshnessThreshold.filter := None |}.

(** A source table without freshness, and an inherited [__post_serialize__]
    that returns the dict as it is. *)
Definition example_source_table : UnparsedSourceTableDefinition.t :=
  {| UnparsedSourceTableDefinition.name := "orders";
     UnparsedSourceTableDefinition.description := "";
     UnparsedSourceTableDefinition.meta := ∅;
     UnparsedSourceTableDefinition.data_type := None;
     UnparsedSourceTableDefinition.docs :=
       {| Docs.show := true; Docs.node_color := None |};
     UnparsedSourceTableDefinition._extra := ∅;
     UnparsedSourceTableDefinition.tests := Some [];
     UnparsedSourceTableDefinition.columns := [];
     UnparsedSourceTableDefinition.config := ∅;
     UnparsedSourceTableDefinition.loaded_at_field := None;
     UnparsedSourceTableDefinition.identifier := None;
     UnparsedSourceTableDefinition.quoting :=
       {| Quoting.database := None; Quoting.schema := None;
          Quoting.identifier := None; Quoting.column := None |};
     UnparsedSourceTableDefinition.freshness := None;
     UnparsedSourceTableDefinition.external := None;
     UnparsedSourceTableDefinition.tags := [] |}.

Definition example_super_post_serialize
  : UnparsedSourceTableDefinition.SuperPostSerialize := fun _ dct => dct.

(** A table patch that sets only its name and description. *)
Definition example_table_patch (name : string) (description : string)
  : SourceTablePatch.t :=
  {| SourceTablePatch.name := name;
     SourceTablePatch.description := Some description;
     SourceTablePatch.meta := None;
     SourceTablePatch.data_type := None;
     SourceTablePatch.docs := None;
     SourceTablePatch.loaded_at_field := None;
     SourceTablePatch.identifier := None;
     SourceTablePatch.quoting :=
       {| Quoting.database := None; Quoting.schema := None;
          Quoting.identifier := None; Quoting.column := None |};
     SourceTablePatch.freshness := None;
     SourceTablePatch.external := None;
     SourceTablePatch.tags := None;
     SourceTablePatch.tests := None;
     SourceTablePatch.columns := None |}.

(** A source patch with two tables of the same name. *)
Definition example_source_patch : SourcePatch.t :=
  {| SourcePatch.name := "shop";
     SourcePatch.overrides := "upstream";
     SourcePatch.path := "models/schema.yml";
     SourcePatch.config := ∅;
     SourcePatch.description := None;
     SourcePatch.meta := None;
     SourcePatch.database := None;
     SourcePatch.schema := None;
     SourcePatch.loader := None;
     SourcePatch.quoting := None;
     SourcePatch.freshness := None;
     SourcePatch.loaded_at_field := None;
     SourcePatch.tables :=
       Some [example_table_patch "customers" "people";
             example_table_patch "orders" "first";
             example_table_patch "orders" "second"];
     SourcePatch.tags := None |}.

(** A [to_dict] for the example table patches: the name, the description when
    there is one, and the quoting, which is never [None] and whose own fields
    are all [None] there, hence the empty dict. *)
Definition example_table_to_dict : SourceTablePatch.ToDict := fun self =>
  let dct : gmap string raw :=
    {[ "name" := RStr (SourceTablePatch.name self);
       "quoting" := RDict ∅ ]} in
  match SourceTablePatch.description self with
  | Some description => <["description" := RStr description]> dct
  | None => dct
  end.

(** An entity with two identifiers: one names its entity, one does not. *)
Definition example_entity : gmap string raw :=
  {[ "name" := RStr "orders";
     "model" := RStr "ref('fct_orders')";
     "identifiers" :=
       RList [RDict {[ "name" := RStr "order_id"; "entity" := RStr "order" ]};
              RDict {[ "name" := RStr "customer_id" ]}] ]}.

(** * Properties *)

(** ** Truthiness and freshness ([unparsed.py]) *)

Lemma is_not_None_true {A} (x : option A) : is_not_None x = true ↔ x ≠ None.
Proof. destruct x; simpl; split; congruence. Qed.

Lemma bool_optional_true {A} (f : A → bool) (x : option A) :
  bool_optional f x = true ↔ ∃ a, x = Some a ∧ f a = true.
Proof.
  destruct x as [a|]; simpl; split.
  - intros Ha. by exists a.
  - by intros (a' & [= <-] & Ha).
  - done.
  - by intros (a' & ? & _).
Qed.

(** C7. The boolean conversions denote "is configured": a [Time] is truthy iff
    both [count] and [period] are not [None]; a [FreshnessThreshold] is truthy
    iff its [warn_after] or its [error_after] is a truthy [Time]; an
    [ExternalTable] is truthy iff its [location] is not [None]. *)
Theorem C7_bool_is_configured :
  (∀ time : Time.t,
     Time.__bool__ time = true ↔
     Time.count time ≠ None ∧ Time.period time ≠ None)
  ∧ (∀ threshold : FreshnessThreshold.t,
       FreshnessThreshold.__bool__ threshold = true ↔
       (∃ w, FreshnessThreshold.warn_after threshold = Some w
             ∧ Time.__bool__ w = true)
       ∨ (∃ e, FreshnessThreshold.error_after threshold = Some e
               ∧ Time.__bool__ e = true))
  ∧ (∀ table : ExternalTable.t,
       ExternalTable.__bool__ table = true ↔ ExternalTable.location table ≠ None).
Proof.
  split; [|split].
  - intros time. unfold Time.__bool__.
    by rewrite andb_true_iff, !is_not_None_true.
  - intros threshold. unfold FreshnessThreshold.__bool__.
    by rewrite orb_true_iff, !bool_optional_true.
  - intros table. apply is_not_None_true.
Qed.

Lemma Time_unconfigured_falsy (time : Time.t) :
  Time.count time = None ∨ Time.period time = None →
  Time.__bool__ time = false.
Proof.
  unfold Time.__bool__. intros [-> | ->]; simpl; [done|].
  apply andb_false_r.
Qed.

Lemma and_exceeded_unconfigured (x : option Time.t) (age : float) :
  (∀ time, x = Some time → Time.count time = None ∨ Time.period time = None) →
  FreshnessThreshold.and_exceeded x age = Ok false.
Proof.
  intros Hx. destruct x as [time|]; simpl; [|done].
  by rewrite Time_unconfigured_falsy by by apply Hx.
Qed.

(** C10. A [Time] whose [count] or [period] is [None] is never exceeded, and a
    [FreshnessThreshold] whose [warn_after] and [error_after] are both
    unconfigured, the default one among them, has status [Pass] at every age. *)
Theorem C10_unconfigured_never_exceeded :
  (∀ (time : Time.t) (actual_age : float),
     Time.count time = None ∨ Time.period time = None →
     Time.exceeded time actual_age = Ok false)
  ∧ (∀ (threshold : FreshnessThreshold.t) (age : float),
       (∀ w, FreshnessThreshold.warn_after threshold = Some w →
             Time.count w = None ∨ Time.period w = None) →
       (∀ e, FreshnessThreshold.error_after threshold = Some e →
             Time.count e = None ∨ Time.period e = None) →
       FreshnessThreshold.status threshold age = Ok FreshnessStatus.Pass)
  ∧ (∀ age : float,
       FreshnessThreshold.status FreshnessThreshold.default age
       = Ok FreshnessStatus.Pass).
Proof.
  split; [|split].
  - intros [c p] age [Hc | Hp]; simpl in *; subst; unfold Time.exceeded; simpl.
    + by destruct p.
    + done.
  - intros threshold age Hw He. unfold FreshnessThreshold.status.
    by rewrite (and_exceeded_unconfigured _ _ He),
      (and_exceeded_unconfigured _ _ Hw).
  - done.
Qed.

Lemma C10_witness :
  Time.exceeded {| Time.count := Some 3%Z; Time.period := None |} 1e9%float
  = Ok false
  ∧ FreshnessThreshold.status
      {| FreshnessThreshold.warn_after := None;
         FreshnessThreshold.error_after :=
           Some {| Time.count := None; Time.period := Some TimePeriod.hour |};
         FreshnessThreshold.filter := None |} 1e9%float
    = Ok FreshnessStatus.Pass.
Proof.
  split.
  - apply (proj1 C10_unconfigured_never_exceeded). by right.
  - apply (proj1 (proj2 C10_unconfigured_never_exceeded)).
    + intros w [=].
    + intros e [= <-]. by left.
Defined.

(** The configured branch of [exceeded] on concrete inputs: one hour is 3600
    seconds, the comparison is strict, and a count beyond the range of
    [timedelta] raises. *)
Example exceeded_one_hour :
  let one_hour := {| Time.count := Some 1%Z; Time.period := Some TimePeriod.hour |} in
  Time.exceeded one_hour 3600.5%float = Ok true
  ∧ Time.exceeded one_hour 3600%float = Ok false
  ∧ Time.exceeded
      {| Time.count := Some 1000000000%Z; Time.period := Some TimePeriod.day |}
      0%float = Raise OverflowError.
Proof. by vm_compute. Qed.

Example status_of_thresholds :
  let threshold :=
    {| FreshnessThreshold.warn_after :=
         Some {| Time.count := Some 10%Z; Time.period := Some TimePeriod.minute |};
       FreshnessThreshold.error_after :=
         Some {| Time.count := Some 1%Z; Time.period := Some TimePeriod.day |};
       FreshnessThreshold.filter := None |} in
  FreshnessThreshold.status threshold 90000%float = Ok FreshnessStatus.Error
  ∧ FreshnessThreshold.status threshold 601%float = Ok FreshnessStatus.Warn
  ∧ FreshnessThreshold.status threshold 600%float = Ok FreshnessStatus.Pass.
Proof. by vm_compute. Qed.

(** ** Relation stubs ([_relation_stub.py]) *)

(** C3. At each of the three stub levels, [parse_model_node] and
    [parse_describe_relation_results] return the empty dict whatever node or
    rows they are given, of whatever type. *)
Theorem C3_stub_parsers_return_empty :
  ∀ (ModelNode DescribeRelationResults : Type)
    (model_node : ModelNode)
    (describe_relation_results : DescribeRelationResults),
    DatabaseRelationStub.parse_model_node model_node = ∅
    ∧ DatabaseRelationStub.parse_describe_relation_results
        describe_relation_results = ∅
    ∧ SchemaRelationStub.parse_model_node model_node = ∅
    ∧ SchemaRelationStub.parse_describe_relation_results
        describe_relation_results = ∅
    ∧ RelationStub.parse_model_node model_node = ∅
    ∧ RelationStub.parse_describe_relation_results
        describe_relation_results = ∅.
Proof. intros. repeat split. Qed.

Lemma getitem_Some (d : gmap string value) (key : string) (v : value) :
  d !! key = Some v → getitem (VDict d) key = Ok v.
Proof. intros Hkey. simpl. by rewrite Hkey. Qed.

Lemma getitem_None (d : gmap string value) (key : string) :
  d !! key = None → getitem (VDict d) key = Raise (KeyError key).
Proof. intros Hkey. simpl. by rewrite Hkey. Qed.

Lemma getitem_dict_cases (d : gmap string value) (key : string) :
  (∃ v, d !! key = Some v ∧ getitem (VDict d) key = Ok v)
  ∨ (d !! key = None ∧ getitem (VDict d) key = Raise (KeyError key)).
Proof.
  destruct (d !! key) as [v|] eqn:Hkey.
  - left. exists v. by rewrite (getitem_Some _ _ _ Hkey).
  - right. by rewrite (getitem_None _ _ Hkey).
Qed.

Lemma bind_Ok {A B} (a : A) (k : A → Result B) : (Ok a ≫= k) = k a.
Proof. reflexivity. Qed.

Lemma bind_Raise {A B} (e : exn) (k : A → Result B) : (Raise e ≫= k) = Raise e.
Proof. reflexivity. Qed.

(** Running a constructor up to its first failing subscript. *)
Ltac step_getitem d key :=
  let v := fresh "v" in
  let Hv := fresh "Hv" in
  let Hget := fresh "Hget" in
  destruct (getitem_dict_cases d key) as [(v & Hv & Hget) | [Hv Hget]];
  rewrite Hget; rewrite ?bind_Ok, ?bind_Raise; cbv beta.

(** The subscripted key is one of the required keys and is absent. *)
Ltac key_absent := split; [repeat constructor | by split].

Section stubs.

Context `{!DatabaseRelation.FromDict}.

(** C2, as the code has it.  A configuration dict without a required key
    makes each stub constructor fail.  The exception is the [KeyError] of a
    subscript with an absent key of that dict, unless building the nested
    database or schema from its entry raises first, and then it is that
    exception. *)
Theorem C2_missing_key_raises (d : gmap string value) :
  (d !! "name" = None ∨ d !! "render" = None →
   ∃ k, k ∈ ["name"; "render"] ∧ d !! k = None
        ∧ DatabaseRelationStub.from_dict (VDict d) = Raise (KeyError k))
  ∧ (d !! "name" = None ∨ d !! "database" = None ∨ d !! "render" = None →
     ∃ e, SchemaRelationStub.from_dict (VDict d) = Raise e
          ∧ ((∃ k, k ∈ ["name"; "database"; "render"] ∧ d !! k = None
                   ∧ e = KeyError k)
             ∨ (∃ v, d !! "database" = Some v
                     ∧ DatabaseRelation.from_dict v = Raise e)))
  ∧ (d !! "name" = None ∨ d !! "schema" = None ∨ d !! "render" = None →
     ∃ e, RelationStub.from_dict (VDict d) = Raise e
          ∧ ((∃ k, k ∈ ["name"; "schema"; "render"] ∧ d !! k = None
                   ∧ e = KeyError k)
             ∨ (∃ v, d !! "schema" = Some v
                     ∧ SchemaRelationStub.from_dict v = Raise e))).
Proof.
  split; [|split]; intros Habsent.
  - unfold DatabaseRelationStub.from_dict.
    step_getitem d "name"; [|exists "name"; key_absent].
    step_getitem d "render"; [|exists "render"; key_absent].
    destruct Habsent; congruence.
  - unfold SchemaRelationStub.from_dict.
    step_getitem d "name";
      [|eexists; split; [done|]; left; exists "name"; key_absent].
    step_getitem d "database";
      [|eexists; split; [done|]; left; exists "database"; key_absent].
    destruct (DatabaseRelation.from_dict v0) as [database|e] eqn:Hdb;
      rewrite ?bind_Ok, ?bind_Raise; cbv beta;
      [|exists e; split; [done|]; right; by exists v0].
    step_getitem d "render";
      [|eexists; split; [done|]; left; exists "render"; key_absent].
    destruct Habsent as [? | [? | ?]]; congruence.
  - unfold RelationStub.from_dict.
    step_getitem d "name";
      [|eexists; split; [done|]; left; exists "name"; key_absent].
    step_getitem d "schema";
      [|eexists; split; [done|]; left; exists "schema"; key_absent].
    destruct (SchemaRelationStub.from_dict v0) as [schema|e] eqn:Hschema;
      rewrite ?bind_Ok, ?bind_Raise; cbv beta;
      [|exists e; split; [done|]; right; by exists v0].
    step_getitem d "render";
      [|eexists; split; [done|]; left; exists "render"; key_absent].
    destruct Habsent as [? | [? | ?]]; congruence.
Qed.

End stubs.

Lemma C2_witness :
  (∃ k, k ∈ ["name"; "render"]
        ∧ ({[ "name" := VStr "analytics" ]} : gmap string value) !! k = None
        ∧ DatabaseRelationStub.from_dict (VDict {[ "name" := VStr "analytics" ]})
          = Raise (KeyError k))
  ∧ (∃ e, RelationStub.from_dict (H := spec_DatabaseRelation_from_dict)
            (VDict (delete "schema" example_relation_dict)) = Raise e
          ∧ ((∃ k, k ∈ ["name"; "schema"; "render"]
                   ∧ delete "schema" example_relation_dict !! k = None
                   ∧ e = KeyError k)
             ∨ (∃ v, delete "schema" example_relation_dict !! "schema" = Some v
                     ∧ SchemaRelationStub.from_dict
                         (H := spec_DatabaseRelation_from_dict) v = Raise e))).
Proof.
  split.
  - apply (proj1 (C2_missing_key_raises
                    (H := spec_DatabaseRelation_from_dict)
                    {[ "name" := VStr "analytics" ]})).
    right. reflexivity.
  - apply (proj2 (proj2 (C2_missing_key_raises
                           (H := spec_DatabaseRelation_from_dict)
                           (delete "schema" example_relation_dict)))).
    right. left. reflexivity.
Defined.

(** C2, as the specification states it, fails: on the empty dict each of the
    three constructors raises [KeyError] for the key [name], which is not a
    [ConstructionError]; so does a database dict that only lacks [render]. *)
Lemma C2_counterexample :
  DatabaseRelationStub.from_dict (VDict ∅) = Raise (KeyError "name")
  ∧ SchemaRelationStub.from_dict (H := spec_DatabaseRelation_from_dict)
      (VDict ∅) = Raise (KeyError "name")
  ∧ RelationStub.from_dict (H := spec_DatabaseRelation_from_dict)
      (VDict ∅) = Raise (KeyError "name")
  ∧ DatabaseRelationStub.from_dict (VDict {[ "name" := VStr "analytics" ]})
    = Raise (KeyError "render")
  ∧ ¬ (∀ d : gmap string value,
         d !! "name" = None ∨ d !! "render" = None →
         DatabaseRelationStub.from_dict (VDict d) = Raise ConstructionError).
Proof.
  repeat split.
  intros Hclaim. specialize (Hclaim ∅ (or_introl eq_refl)). discriminate Hclaim.
Qed.

Section stubs_of_documented_shape.

Context `{!DatabaseRelation.FromDict}.

(** C4. For a configuration dict with the keys [name], [schema], [render],
    [type] and [can_be_renamed], whose schema entry is a dict with the keys
    [name], [database] and [render], [RelationStub.from_dict] returns the
    [RelationStub] with these entries as its fields; its schema is the
    [SchemaRelationStub] that [SchemaRelationStub.from_dict] builds from the
    schema dict, and the database of that one is what
    [DatabaseRelation.from_dict] builds from the database dict. *)
Theorem C4_from_dict_documented_shape
  (d sd : gmap string value) (name schema_name render schema_render : value)
  (type can_be_renamed database_dict : value) (database : DatabaseRelation.t) :
  d !! "name" = Some name →
  d !! "schema" = Some (VDict sd) →
  d !! "render" = Some render →
  d !! "type" = Some type →
  d !! "can_be_renamed" = Some can_be_renamed →
  sd !! "name" = Some schema_name →
  sd !! "database" = Some database_dict →
  sd !! "render" = Some schema_render →
  DatabaseRelation.from_dict database_dict = Ok database →
  let schema :=
    {| SchemaRelationStub.type_self := SchemaRelationStub_cls;
       SchemaRelationStub.name := schema_name;
       SchemaRelationStub.database := database;
       SchemaRelationStub.render := schema_render;
       SchemaRelationStub.DatabaseParser := DatabaseRelationStub_cls |} in
  SchemaRelationStub.from_dict (VDict sd) = Ok schema
  ∧ RelationStub.from_dict (VDict d)
    = Ok {| RelationStub.type_self := RelationStub_cls;
            RelationStub.name := name;
            RelationStub.schema := schema;
            RelationStub.render := render;
            RelationStub.type := type;
            RelationStub.can_be_renamed := can_be_renamed;
            RelationStub.SchemaParser := SchemaRelationStub_cls |}.
Proof.
  intros Hname Hschema Hrender Htype Hrenamed Hsname Hsdb Hsrender Hdb schema.
  assert (SchemaRelationStub.from_dict (VDict sd) = Ok schema) as Hsd.
  { unfold SchemaRelationStub.from_dict.
    rewrite (getitem_Some _ _ _ Hsname), bind_Ok.
    rewrite (getitem_Some _ _ _ Hsdb), bind_Ok, Hdb, bind_Ok.
    by rewrite (getitem_Some _ _ _ Hsrender), bind_Ok. }
  split; [done|].
  unfold RelationStub.from_dict.
  rewrite (getitem_Some _ _ _ Hname), bind_Ok.
  rewrite (getitem_Some _ _ _ Hschema), bind_Ok, Hsd, bind_Ok.
  rewrite (getitem_Some _ _ _ Hrender), bind_Ok.
  rewrite (getitem_Some _ _ _ Htype), bind_Ok.
  by rewrite (getitem_Some _ _ _ Hrenamed), bind_Ok.
Qed.

End stubs_of_documented_shape.

Lemma C4_witness :
  let database :=
    {| DatabaseRelation.type_self := DatabaseRelation_cls;
       DatabaseRelation.name := VStr "analytics";
       DatabaseRelation.render := VObject 1 |} in
  let schema :=
    {| SchemaRelationStub.type_self := SchemaRelationStub_cls;
       SchemaRelationStub.name := VStr "public";
       SchemaRelationStub.database := database;
       SchemaRelationStub.render := VObject 1;
       SchemaRelationStub.DatabaseParser := DatabaseRelationStub_cls |} in
  SchemaRelationStub.from_dict (H := spec_DatabaseRelation_from_dict)
    (VDict example_schema_dict) = Ok schema
  ∧ RelationStub.from_dict (H := spec_DatabaseRelation_from_dict)
      (VDict example_relation_dict)
    = Ok {| RelationStub.type_self := RelationStub_cls;
            RelationStub.name := VStr "mv1";
            RelationStub.schema := schema;
            RelationStub.render := VObject 1;
            RelationStub.type := VStr "materialized_view";
            RelationStub.can_be_renamed := VBool true;
            RelationStub.SchemaParser := SchemaRelationStub_cls |}.
Proof.
  apply (C4_from_dict_documented_shape
           (H := spec_DatabaseRelation_from_dict)
           example_relation_dict example_schema_dict
           (VStr "mv1") (VStr "public") (VObject 1) (VObject 1)
           (VStr "materialized_view") (VBool true)
           (VDict example_database_dict)); reflexivity.
Defined.

(** ** The materialization factory ([factory.py]) *)

Section materialization_factory.

Context {RuntimeConfig RelationFactory Materialization : Type}.

Local Abbreviation Factory :=
  (MaterializationFactory.t RuntimeConfig RelationFactory Materialization).
Local Abbreviation Strategy :=
  (MaterializationFactory.MaterializationClass
     RuntimeConfig RelationFactory Materialization).
Local Abbreviation make_from_runtime_config :=
  MaterializationFactory.make_from_runtime_config.
Local Abbreviation materialization_map := MaterializationFactory.materialization_map.
Local Abbreviation relation_factory := MaterializationFactory.relation_factory.
Local Abbreviation from_runtime_config := MaterializationFactory.from_runtime_config.
Local Abbreviation __init__ := MaterializationFactory.__init__.

Implicit Types (self : Factory) (parser default : Strategy).
Implicit Types (runtime_config : RuntimeConfig) (factory : RelationFactory).
Implicit Types (materialization_type : MaterializationType.t).
Implicit Types (existing_relation_stub : option RelationStub.t).

(** What the call does, by the two lookups it makes. *)
Lemma make_from_runtime_config_unfold
  self runtime_config materialization_type existing_relation_stub :
  make_from_runtime_config runtime_config materialization_type
    existing_relation_stub self
  = (match materialization_map self !! materialization_type with
     | None => Ok None
     | Some parser =>
         match relation_factory self with
         | None => Raise AssertionError
         | Some factory =>
             Some <$> from_runtime_config parser runtime_config factory
                        existing_relation_stub
         end
     end, self).
Proof.
  unfold make_from_runtime_config, MaterializationFactory._get_parser,
    MaterializationFactory.bind, MaterializationFactory.getattr,
    MaterializationFactory.ret, MaterializationFactory.raise,
    MaterializationFactory.call.
  destruct (materialization_map self !! materialization_type) as [parser|];
    [|done].
  destruct (relation_factory self) as [factory|]; [|done].
  by destruct (from_runtime_config parser runtime_config factory
                 existing_relation_stub).
Qed.

Lemma default_map_lookup default materialization_type :
  materialization_type ≠ MaterializationType.MaterializedView →
  ({[ MaterializationType.MaterializedView := default ]}
     : gmap MaterializationType.t Strategy) !! materialization_type = None.
Proof. intros Hne. by rewrite lookup_singleton_ne. Qed.

(** C1. For a type that is absent from the materialization map of the factory
    the call returns [None] and raises nothing; with the default map this is
    so for every type but [MaterializedView], for [Table] in particular. *)
Theorem C1_unmapped_type_returns_None :
  (∀ self runtime_config materialization_type existing_relation_stub,
     materialization_map self !! materialization_type = None →
     make_from_runtime_config runtime_config materialization_type
       existing_relation_stub self = (Ok None, self))
  ∧ (∀ default (factory : option RelationFactory) runtime_config
       materialization_type existing_relation_stub,
       materialization_type ≠ MaterializationType.MaterializedView →
       (make_from_runtime_config runtime_config materialization_type
          existing_relation_stub (__init__ default factory None)).1 = Ok None)
  ∧ (∀ default (factory : option RelationFactory) runtime_config
       existing_relation_stub,
       (make_from_runtime_config runtime_config MaterializationType.Table
          existing_relation_stub (__init__ default factory None)).1 = Ok None).
Proof.
  split; [|split].
  - intros self rc mt stub Habsent.
    by rewrite make_from_runtime_config_unfold, Habsent.
  - intros default factory rc mt stub Hne.
    rewrite make_from_runtime_config_unfold. simpl.
    by rewrite default_map_lookup.
  - intros default factory rc stub.
    rewrite make_from_runtime_config_unfold. simpl.
    by rewrite default_map_lookup.
Qed.

(** C5. With a relation factory set and a strategy mapped to the type, the
    call returns what the strategy's [from_runtime_config] returns, or raises
    what it raises, for the given runtime config, the relation factory of the
    factory and the given stub. *)
Theorem C5_delegates_to_mapped_strategy
  self runtime_config materialization_type existing_relation_stub
  factory parser :
  relation_factory self = Some factory →
  materialization_map self !! materialization_type = Some parser →
  make_from_runtime_config runtime_config materialization_type
    existing_relation_stub self
  = (Some <$> from_runtime_config parser runtime_config factory
                existing_relation_stub, self).
Proof.
  intros Hfactory Hparser.
  by rewrite make_from_runtime_config_unfold, Hparser, Hfactory.
Qed.

(** C8. The call leaves the attributes of the factory as they were. *)
Theorem C8_factory_unchanged
  self runtime_config materialization_type existing_relation_stub :
  (make_from_runtime_config runtime_config materialization_type
     existing_relation_stub self).2 = self.
Proof. by rewrite make_from_runtime_config_unfold. Qed.

(** C9. A factory constructed without a relation factory fails the assertion
    for every type in its map.  A factory constructed with one never does: the
    outcome of the call is that of the mapped strategy, or [None]. *)
Theorem C9_assertion_on_relation_factory :
  (∀ default map runtime_config materialization_type existing_relation_stub,
     let self := __init__ default None map in
     is_Some (materialization_map self !! materialization_type) →
     (make_from_runtime_config runtime_config materialization_type
        existing_relation_stub self).1 = Raise AssertionError)
  ∧ (∀ default factory map runtime_config materialization_type
       existing_relation_stub,
       let self := __init__ default (Some factory) map in
       (make_from_runtime_config runtime_config materialization_type
          existing_relation_stub self).1
       = match materialization_map self !! materialization_type with
         | Some parser =>
             Some <$> from_runtime_config parser runtime_config factory
                        existing_relation_stub
         | None => Ok None
         end).
Proof.
  split.
  - intros default map rc mt stub self [parser Hparser].
    by rewrite make_from_runtime_config_unfold, Hparser.
  - intros default factory map rc mt stub self.
    by rewrite make_from_runtime_config_unfold.
Qed.

End materialization_factory.

Lemma C1_witness :
  let self :=
    MaterializationFactory.__init__ example_strategy (Some tt) None in
  MaterializationFactory.make_from_runtime_config tt MaterializationType.Table
    None self = (Ok None, self).
Proof.
  apply (proj1 C1_unmapped_type_returns_None). reflexivity.
Defined.

Lemma C5_witness :
  let self :=
    MaterializationFactory.__init__ example_strategy (Some tt) None in
  MaterializationFactory.make_from_runtime_config tt
    MaterializationType.MaterializedView None self
  = (Some <$> MaterializationFactory.from_runtime_config example_strategy
                tt tt None, self).
Proof.
  apply C5_delegates_to_mapped_strategy; reflexivity.
Defined.

Lemma C9_witness :
  (MaterializationFactory.make_from_runtime_config tt
     MaterializationType.MaterializedView None
     (MaterializationFactory.__init__ example_strategy None None)).1
  = Raise AssertionError.
Proof.
  apply (proj1 C9_assertion_on_relation_factory).
  exists example_strategy. reflexivity.
Defined.

(** The factory on concrete inputs: the default map sends [MaterializedView]
    to the strategy, which sees the stub it is given; an empty map passed to
    the constructor is replaced by the default map. *)
Example make_from_runtime_config_runs :
  let self := MaterializationFactory.__init__ example_strategy (Some tt) (Some ∅) in
  (MaterializationFactory.make_from_runtime_config tt
     MaterializationType.MaterializedView None self).1 = Ok (Some "create")
  ∧ (∀ stub,
       (MaterializationFactory.make_from_runtime_config tt
          MaterializationType.MaterializedView (Some stub) self).1
       = Ok (Some "replace"))
  ∧ (MaterializationFactory.make_from_runtime_config tt
       MaterializationType.View None self).1 = Ok None.
Proof. repeat split. Qed.

(** * Further properties *)

(** ** [Maturity]: the ordering low < medium < high *)

(** X1. On members, [__lt__] never raises and never returns [NotImplemented];
    it is the strict total order with low below medium below high. *)
Theorem X1_Maturity_lt_strict_total_order :
  let less a b := Maturity.__lt__ a (Maturity.Member b)
                  = Return (Maturity.Bool true) in
  let not_less a b := Maturity.__lt__ a (Maturity.Member b)
                      = Return (Maturity.Bool false) in
  less Maturity.low Maturity.medium
  ∧ less Maturity.medium Maturity.high
  ∧ (∀ a b, less a b ∨ not_less a b)
  ∧ (∀ a, not_less a a)
  ∧ (∀ a b c, less a b → less b c → less a c)
  ∧ (∀ a b, less a b → not_less b a)
  ∧ (∀ a b, a ≠ b → less a b ∨ less b a).
Proof.
  repeat split.
  - intros [] []; vm_compute; auto.
  - by intros [].
  - intros [] [] []; vm_compute; congruence.
  - intros [] []; vm_compute; congruence.
  - intros [] [] Hne; vm_compute; auto; by destruct Hne.
Qed.

(** X2. The four comparison methods agree with each other on members:
    [a > b] is [b < a], [a >= b] is [b <= a], [a <= b] is the negation of
    [a > b] and [a >= b] the negation of [a < b].  For an operand that is not a
    member, each of them returns [NotImplemented]. *)
Theorem X2_Maturity_comparisons_consistent :
  (∀ a b, Maturity.__gt__ a (Maturity.Member b)
          = Maturity.__lt__ b (Maturity.Member a))
  ∧ (∀ a b, Maturity.__ge__ a (Maturity.Member b)
            = Maturity.__le__ b (Maturity.Member a))
  ∧ (∀ a b, ∃ r, Maturity.__gt__ a (Maturity.Member b)
                 = Return (Maturity.Bool r)
                 ∧ Maturity.__le__ a (Maturity.Member b)
                   = Return (Maturity.Bool (negb r)))
  ∧ (∀ a b, ∃ r, Maturity.__lt__ a (Maturity.Member b)
                 = Return (Maturity.Bool r)
                 ∧ Maturity.__ge__ a (Maturity.Member b)
                   = Return (Maturity.Bool (negb r)))
  ∧ (∀ a v, Maturity.__lt__ a (Maturity.Other v) = Return Maturity.NotImplemented
            ∧ Maturity.__gt__ a (Maturity.Other v) = Return Maturity.NotImplemented
            ∧ Maturity.__le__ a (Maturity.Other v) = Return Maturity.NotImplemented
            ∧ Maturity.__ge__ a (Maturity.Other v) = Return Maturity.NotImplemented).
Proof.
  split; [|split; [|split; [|split]]].
  - by intros [] [].
  - by intros [] [].
  - intros [] []; eexists; split; vm_compute; reflexivity.
  - intros [] []; eexists; split; vm_compute; reflexivity.
  - done.
Qed.

(** ** [SourcePatch.get_table_named] *)

Lemma first_named_Some name tables table :
  SourcePatch.first_named name tables = Some table ↔
  ∃ before after,
    tables = before ++ table :: after
    ∧ SourceTablePatch.name table = name
    ∧ Forall (fun t => SourceTablePatch.name t ≠ name) before.
Proof.
  induction tables as [|t tables IH]; simpl.
  - split; [done|]. intros (before & after & Heq & _). by destruct before.
  - destruct (String.eqb_spec (SourceTablePatch.name t) name) as [Hname|Hname].
    + split.
      * intros [= <-]. by exists [], tables.
      * intros (before & after & Heq & Htable & Hbefore).
        destruct before as [|t' before]; simplify_eq/=; [done|].
        by inversion Hbefore.
    + rewrite IH. split.
      * intros (before & after & -> & Htable & Hbefore).
        exists (t :: before), after. by repeat constructor.
      * intros (before & after & Heq & Htable & Hbefore).
        destruct before as [|t' before]; simplify_eq/=.
        exists before, after. by inversion Hbefore.
Qed.

Lemma first_named_None name tables :
  SourcePatch.first_named name tables = None ↔
  Forall (fun t => SourceTablePatch.name t ≠ name) tables.
Proof.
  induction tables as [|t tables IH]; simpl; [done|].
  destruct (String.eqb_spec (SourceTablePatch.name t) name) as [Hname|Hname].
  - split; [done|]. by inversion 1.
  - rewrite IH. split; [by constructor|by inversion 1].
Qed.

(** X3. [get_table_named] returns a table exactly when it is the first table
    of the patch with that name. *)
Theorem X3_get_table_named_first_match (self : SourcePatch.t) name table :
  SourcePatch.get_table_named self name = Some table ↔
  ∃ before after,
    SourcePatch.tables self = Some (before ++ table :: after)
    ∧ SourceTablePatch.name table = name
    ∧ Forall (fun t => SourceTablePatch.name t ≠ name) before.
Proof.
  unfold SourcePatch.get_table_named.
  destruct (SourcePatch.tables self) as [tables|].
  - rewrite first_named_Some. split.
    + intros (before & after & -> & ?). by exists before, after.
    + intros (before & after & [= ->] & ?). by exists before, after.
  - split; [done|]. by intros (? & ? & ? & _).
Qed.

(** X4. [get_table_named] returns [None] exactly when the patch has no tables
    (the field is [None]) or none of its tables has that name. *)
Theorem X4_get_table_named_None (self : SourcePatch.t) name :
  SourcePatch.get_table_named self name = None ↔
  SourcePatch.tables self = None
  ∨ ∃ tables, SourcePatch.tables self = Some tables
              ∧ Forall (fun t => SourceTablePatch.name t ≠ name) tables.
Proof.
  unfold SourcePatch.get_table_named.
  destruct (SourcePatch.tables self) as [tables|].
  - rewrite first_named_None. split.
    + intros Hall. right. by exists tables.
    + by intros [? | (? & [= <-] & ?)].
  - split; [by left|done].
Qed.

(** ** [to_patch_dict] and [__post_serialize__] *)

Lemma delete_keys_lookup remove_keys (dct : gmap string raw) key :
  delete_keys remove_keys dct !! key
  = if bool_decide (key ∈ remove_keys) then None else dct !! key.
Proof.
  revert dct. induction remove_keys as [|k ks IH]; intros dct; simpl; [done|].
  fold (delete_keys ks). rewrite IH. clear IH.
  destruct (decide (key ∈ ks)) as [Hin|Hin].
  { rewrite !bool_decide_eq_true_2; [done| |done]. by right. }
  rewrite (bool_decide_eq_false_2 (key ∈ ks)) by done.
  destruct (decide (key = k)) as [->|Hne].
  - rewrite (bool_decide_eq_true_2 (k ∈ k :: ks)) by by left.
    destruct (dct !! k) as [v|] eqn:Hk.
    + rewrite bool_decide_eq_true_2 by by eexists. apply lookup_delete_eq.
    + rewrite bool_decide_eq_false_2; [done|]. by intros [? [=]].
  - rewrite (bool_decide_eq_false_2 (key ∈ k :: ks)).
    + destruct (bool_decide (is_Some (dct !! k))); [|done].
      by rewrite lookup_delete_ne.
    + rewrite elem_of_cons. by intros [?|?].
Qed.

Section patches.

Context `{!SourcePatch.ToDict, !SourceTablePatch.ToDict}.

(** X5. The patch dict of a [SourcePatch] has none of the keys [name],
    [overrides], [tables] and [path]; its [freshness] entry is [None] when the
    freshness of the patch is [None]; every other entry is that of
    [to_dict]. *)
Theorem X5_SourcePatch_to_patch_dict (self : SourcePatch.t) (key : string) :
  SourcePatch.to_patch_dict self !! key
  = if bool_decide (key ∈ ["name"; "overrides"; "tables"; "path"]) then None
    else if bool_decide (key = "freshness"
                         ∧ SourcePatch.freshness self = None)
    then Some RNone
    else SourcePatch.to_dict_omit_none self !! key.
Proof.
  unfold SourcePatch.to_patch_dict, is_not_None. cbv zeta.
  destruct (SourcePatch.freshness self) as [f|].
  - rewrite delete_keys_lookup. case_bool_decide; [done|].
    rewrite bool_decide_eq_false_2; [done|]. by intros [_ ?].
  - destruct (decide (key = "freshness")) as [->|Hne].
    + by rewrite lookup_insert_eq.
    + rewrite lookup_insert_ne by done. rewrite delete_keys_lookup.
      case_bool_decide; [done|].
      rewrite bool_decide_eq_false_2; [done|]. by intros [? _].
Qed.

(** X6. The patch dict of a [SourceTablePatch] keeps the [name] entry of
    [to_dict]: the loop over [remove_keys] runs over the characters of the
    string "name" and removes the keys [n], [a], [m] and [e] only. *)
Theorem X6_SourceTablePatch_to_patch_dict_keeps_name
  (self : SourceTablePatch.t) :
  SourceTablePatch.to_patch_dict self !! "name"
  = SourceTablePatch.to_dict_omit_none self !! "name"
  ∧ ∀ key,
      SourceTablePatch.to_patch_dict self !! key
      = if bool_decide (key ∈ ["n"; "a"; "m"; "e"]) then None
        else if bool_decide (key = "freshness"
                             ∧ SourceTablePatch.freshness self = None)
        then Some RNone
        else SourceTablePatch.to_dict_omit_none self !! key.
Proof.
  assert (∀ key,
      SourceTablePatch.to_patch_dict self !! key
      = if bool_decide (key ∈ ["n"; "a"; "m"; "e"]) then None
        else if bool_decide (key = "freshness"
                             ∧ SourceTablePatch.freshness self = None)
        then Some RNone
        else SourceTablePatch.to_dict_omit_none self !! key) as Hall.
  { intros key. unfold SourceTablePatch.to_patch_dict.
    change (iter_str "name") with ["n"; "a"; "m"; "e"].
    unfold is_not_None. cbv zeta.
    destruct (SourceTablePatch.freshness self) as [f|].
    - rewrite delete_keys_lookup. case_bool_decide; [done|].
      rewrite bool_decide_eq_false_2; [done|]. by intros [_ ?].
    - destruct (decide (key = "freshness")) as [->|Hne].
      + by rewrite lookup_insert_eq.
      + rewrite lookup_insert_ne by done. rewrite delete_keys_lookup.
        case_bool_decide; [done|].
        rewrite bool_decide_eq_false_2; [done|]. by intros [? _]. }
  split; [|done]. rewrite Hall.
  rewrite bool_decide_eq_false_2
    by (rewrite !elem_of_cons, elem_of_nil; by intros [?|[?|[?|[?|[]]]]]).
  rewrite bool_decide_eq_false_2; [done|]. by intros [? _].
Qed.

End patches.

Section post_serialize.

Context `{!UnparsedSourceTableDefinition.SuperPostSerialize}.
Context `{!UnparsedSourceDefinition.SuperPostSerialize}.

(** X7. [__post_serialize__] of a source and of a source table changes the
    dict that the inherited method returns in one case only: when the
    freshness of the object is [None] and the dict has no [freshness] entry,
    it adds the entry [None].  So an object without freshness always
    serializes with a [freshness] key. *)
Theorem X7_post_serialize_freshness :
  (∀ (self : UnparsedSourceTableDefinition.t) dct,
     let inherited := UnparsedSourceTableDefinition.super_post_serialize self dct in
     let result := UnparsedSourceTableDefinition.__post_serialize__ self dct in
     (∀ key, result !! key
             = if bool_decide (key = "freshness"
                   ∧ UnparsedSourceTableDefinition.freshness self = None
                   ∧ ¬ is_Some (inherited !! "freshness"))
               then Some RNone else inherited !! key)
     ∧ (UnparsedSourceTableDefinition.freshness self = None →
        is_Some (result !! "freshness")))
  ∧ (∀ (self : UnparsedSourceDefinition.t) dct,
       let inherited := UnparsedSourceDefinition.super_post_serialize self dct in
       let result := UnparsedSourceDefinition.__post_serialize__ self dct in
       (∀ key, result !! key
               = if bool_decide (key = "freshness"
                     ∧ UnparsedSourceDefinition.freshness self = None
                     ∧ ¬ is_Some (inherited !! "freshness"))
                 then Some RNone else inherited !! key)
       ∧ (UnparsedSourceDefinition.freshness self = None →
          is_Some (result !! "freshness"))).
Proof.
  split; intros self dct inherited result; subst result;
    [unfold UnparsedSourceTableDefinition.__post_serialize__
    |unfold UnparsedSourceDefinition.__post_serialize__];
    cbv zeta; fold inherited; unfold is_not_None.
  - destruct (UnparsedSourceTableDefinition.freshness self) as [f|];
      destruct (inherited !! "freshness") as [v|] eqn:Hfresh; simpl.
    + split; [|done]. intros key.
      rewrite bool_decide_eq_false_2; [done|]. by intros (_ & ? & _).
    + split; [|done]. intros key.
      rewrite bool_decide_eq_false_2; [done|]. by intros (_ & ? & _).
    + split; [|by rewrite Hfresh]. intros key.
      rewrite bool_decide_eq_false_2; [done|]. intros (_ & _ & Hno).
      by destruct Hno.
    + split; [|by rewrite lookup_insert_eq]. intros key.
      destruct (decide (key = "freshness")) as [->|Hne].
      * rewrite lookup_insert_eq, bool_decide_eq_true_2; [done|].
        repeat split. by intros [? [=]].
      * rewrite lookup_insert_ne by done.
        rewrite bool_decide_eq_false_2; [done|]. by intros (? & _).
  - destruct (UnparsedSourceDefinition.freshness self) as [f|];
      destruct (inherited !! "freshness") as [v|] eqn:Hfresh; simpl.
    + split; [|done]. intros key.
      rewrite bool_decide_eq_false_2; [done|]. by intros (_ & ? & _).
    + split; [|done]. intros key.
      rewrite bool_decide_eq_false_2; [done|]. by intros (_ & ? & _).
    + split; [|by rewrite Hfresh]. intros key.
      rewrite bool_decide_eq_false_2; [done|]. intros (_ & _ & Hno).
      by destruct Hno.
    + split; [|by rewrite lookup_insert_eq]. intros key.
      destruct (decide (key = "freshness")) as [->|Hne].
      * rewrite lookup_insert_eq, bool_decide_eq_true_2; [done|].
        repeat split. by intros [? [=]].
      * rewrite lookup_insert_ne by done.
        rewrite bool_decide_eq_false_2; [done|]. by intros (? & _).
Qed.

End post_serialize.

(** ** [HasCode.empty] *)

Section whitespace.

Context (isspace : N → bool).

Lemma lstrip_all_whitespace (s : list N) :
  Forall (fun c => isspace c = true) (HasCode.lstrip isspace s) ↔
  Forall (fun c => isspace c = true) s.
Proof.
  induction s as [|c s IH]; simpl; [done|].
  destruct (isspace c) eqn:Hc; [|done].
  rewrite IH. split; [by constructor|by inversion 1].
Qed.

Lemma lstrip_nil (s : list N) :
  HasCode.lstrip isspace s = [] ↔ Forall (fun c => isspace c = true) s.
Proof.
  induction s as [|c s IH]; simpl; [done|].
  destruct (isspace c) eqn:Hc.
  - rewrite IH. split; [by constructor|by inversion 1].
  - split; [done|]. inversion 1; congruence.
Qed.

(** X10. The code of a node is [empty] exactly when every character of
    [raw_code] is whitespace (the empty string included). *)
Theorem X10_empty_iff_all_whitespace (self : HasCode.t) :
  HasCode.empty isspace self = true ↔
  Forall (fun c => isspace c = true) (HasCode.raw_code self).
Proof.
  unfold HasCode.empty, HasCode.strip, HasCode.rstrip.
  rewrite <- lstrip_all_whitespace.
  rewrite <- (Forall_reverse _ (HasCode.lstrip _ (HasCode.raw_code self))).
  rewrite <- lstrip_nil.
  destruct (HasCode.lstrip isspace (reverse _)) as [|c rest] eqn:Hstrip.
  - by rewrite reverse_nil.
  - rewrite reverse_cons. split; [|done].
    by destruct (reverse rest).
Qed.

End whitespace.

(** ** [UnparsedMetric.validate] *)

Section metric.

Context (super_validate : raw → Outcome unit) (eq_DERIVED : raw → bool).

Local Abbreviation validate :=
  (UnparsedMetric.validate super_validate eq_DERIVED).

(** The raise statements evaluate [data['name']] for their message. *)
Local Abbreviation raising exception d :=
  (match d !! "name" with
   | Some name => Throw (exception name)
   | None => Throw (Builtin (KeyError "name"))
   end).

(** [validate] on a dict that passes the schema validation, by its lookups. *)
Lemma validate_dict (d : gmap string raw) :
  super_validate (RDict d) = Return tt →
  validate (RDict d)
  = match d !! "type" with
    | None => Throw (Builtin (KeyError "type"))
    | Some type =>
        match d !! "entity" with
        | None =>
            if eq_DERIVED type then Return tt
            else raising (fun n => CompilationError (metric_missing_entity n)) d
        | Some entity =>
            if eq_DERIVED type
            then raising
                   (fun n => CompilationError (metric_derived_with_entity n)) d
            else
              match raw_contains "entity('" entity with
              | Raise e => Throw (Builtin e)
              | Ok true => Return tt
              | Ok false =>
                  raising
                    (fun n => ParsingError (metric_improper_entity_reference n))
                    d
              end
        end
    end.
Proof.
  intros Hsuper. unfold UnparsedMetric.validate. rewrite Hsuper. simpl.
  destruct (d !! "entity") as [entity|] eqn:Hentity;
    destruct (d !! "type") as [type|] eqn:Htype; simpl; try done.
  - destruct (eq_DERIVED type); simpl; [by destruct (d !! "name")|].
    destruct (raw_contains "entity('" entity) as [[]|]; simpl; try done.
    by destruct (d !! "name").
  - destruct (eq_DERIVED type); simpl; [done|]. by destruct (d !! "name").
Qed.

(** X8. [validate] accepts a metric dict exactly when the schema validation
    accepts it, it has a [type], and either it has no [entity] key and the type
    is derived, or it has an [entity] that contains the text [entity('] and
    the type is not derived. *)
Theorem X8_validate_accepts (d : gmap string raw) :
  validate (RDict d) = Return tt ↔
  super_validate (RDict d) = Return tt
  ∧ ∃ type, d !! "type" = Some type
      ∧ match d !! "entity" with
        | None => eq_DERIVED type = true
        | Some entity =>
            eq_DERIVED type = false
            ∧ raw_contains "entity('" entity = Ok true
        end.
Proof.
  destruct (super_validate (RDict d)) as [[]|e] eqn:Hsuper.
  - rewrite (validate_dict _ Hsuper).
    destruct (d !! "type") as [type|];
      [|split; [done|by intros (_ & ? & [=] & _)]].
    destruct (d !! "entity") as [entity|].
    + destruct (eq_DERIVED type) eqn:Hderived.
      * split; [by destruct (d !! "name")|].
        intros (_ & ? & [= <-] & Hfalse & _). congruence.
      * destruct (raw_contains "entity('" entity) as [[]|e].
        -- split; [|done]. intros _. split; [done|]. by exists type.
        -- split; [by destruct (d !! "name")|].
           by intros (_ & ? & _ & _ & [=]).
        -- split; [done|]. by intros (_ & ? & _ & _ & [=]).
    + destruct (eq_DERIVED type) eqn:Hderived.
      * split; [|done]. intros _. split; [done|]. by exists type.
      * split; [by destruct (d !! "name")|].
        intros (_ & ? & [= <-] & Htrue). congruence.
  - split; [|by intros [[=] _]].
    unfold UnparsedMetric.validate. by rewrite Hsuper.
Qed.

(** X9. What [validate] raises for a dict with a [name] and a [type] that
    passes the schema validation: [CompilationError] for a metric without
    entity that is not derived and for a derived metric with an entity;
    [ParsingError] for an entity that is a string without the text
    [entity(']; [TypeError] for an entity that is [None], a number or a
    boolean. *)
Theorem X9_validate_rejects (d : gmap string raw) (name type : raw) :
  super_validate (RDict d) = Return tt →
  d !! "name" = Some name →
  d !! "type" = Some type →
  (d !! "entity" = None → eq_DERIVED type = false →
   validate (RDict d) = Throw (CompilationError (metric_missing_entity name)))
  ∧ (is_Some (d !! "entity") → eq_DERIVED type = true →
     validate (RDict d)
     = Throw (CompilationError (metric_derived_with_entity name)))
  ∧ (∀ s, d !! "entity" = Some (RStr s) → eq_DERIVED type = false →
          String.index 0 "entity('" s = None →
          validate (RDict d)
          = Throw (ParsingError (metric_improper_entity_reference name)))
  ∧ (∀ entity, d !! "entity" = Some entity → eq_DERIVED type = false →
               (entity = RNone ∨ (∃ b, entity = RBool b) ∨ ∃ z, entity = RInt z) →
               validate (RDict d) = Throw (Builtin TypeError)).
Proof.
  intros Hsuper Hname Htype. rewrite (validate_dict _ Hsuper), Hname, Htype.
  repeat split.
  - by intros -> ->.
  - by intros [entity ->] ->.
  - intros s -> -> Hindex. simpl. rewrite Hindex.
    rewrite bool_decide_eq_false_2; [done|]. by intros [? [=]].
  - by intros entity -> -> [-> | [[b ->] | [z ->]]].
Qed.

End metric.

Lemma X9_witness :
  UnparsedMetric.validate example_super_validate example_eq_DERIVED
    (RDict (<["entity" := RNone]> example_metric))
  = Throw (Builtin TypeError).
Proof.
  refine (proj2 (proj2 (proj2
    (X9_validate_rejects example_super_validate example_eq_DERIVED
       (<["entity" := RNone]> example_metric)
       (RStr "revenue") (RStr "measure_proxy") _ _ _))) RNone _ _ _).
  - reflexivity.
  - vm_compute. reflexivity.
  - vm_compute. reflexivity.
  - vm_compute. reflexivity.
  - reflexivity.
  - by left.
Defined.

(** The example metric is accepted; without its entity it is rejected. *)
Example validate_runs :
  UnparsedMetric.validate example_super_validate example_eq_DERIVED
    (RDict example_metric) = Return tt
  ∧ UnparsedMetric.validate example_super_validate example_eq_DERIVED
      (RDict (delete "entity" example_metric))
    = Throw (CompilationError (metric_missing_entity (RStr "revenue")))
  ∧ UnparsedMetric.validate example_super_validate example_eq_DERIVED
      (RDict (<["entity" := RStr "orders"]> example_metric))
    = Throw (ParsingError (metric_improper_entity_reference (RStr "revenue"))).
Proof. by vm_compute. Qed.

(** ** [Time.exceeded] and [FreshnessThreshold.status] beyond the defaults *)

(** The seconds in one period. *)
Local Abbreviation seconds_in p :=
  (match p with
   | TimePeriod.minute => 60
   | TimePeriod.hour => 3600
   | TimePeriod.day => 86400
   end)%Z.

Lemma exceeded_configured (c : Z) (p : TimePeriod.t) (age : float) :
  Time.exceeded {| Time.count := Some c; Time.period := Some p |} age
  = if bool_decide (-999999999 * 86400 ≤ c * seconds_in p
                    < 1000000000 * 86400)%Z
    then Ok (PrimFloat.ltb (float_of_int (c * seconds_in p)) age)
    else Raise OverflowError.
Proof.
  unfold Time.exceeded, timedelta_total_seconds. simpl.
  assert (timedelta_unit (TimePeriod.plural p) = Some (seconds_in p)) as ->
    by by destruct p.
  simpl. set (s := (c * seconds_in p)%Z).
  case_bool_decide as Hrange.
  - rewrite (proj2 (andb_true_iff _ _)); [done|].
    rewrite !Z.leb_le. split.
    + apply Z.div_le_lower_bound; lia.
    + apply Z.lt_succ_r, Z.div_lt_upper_bound; lia.
  - destruct ((-999999999 <=? s `div` 86400)%Z
              && (s `div` 86400 <=? 999999999)%Z) eqn:Hdays; [|done].
    destruct Hrange. apply andb_true_iff in Hdays as [Hlo Hhi].
    apply Z.leb_le in Hlo, Hhi.
    pose proof (Z.mul_div_le s 86400 ltac:(lia)).
    pose proof (Z.mul_succ_div_gt s 86400 ltac:(lia)).
    lia.
Qed.

(** X11. A configured [Time] raises [OverflowError] exactly when its span is
    outside the range of [timedelta], from -999999999 days up to, not
    including, 1000000000 days; otherwise [exceeded] compares the age with the
    span in seconds.  A count of magnitude up to 999999999 never overflows. *)
Theorem X11_exceeded_overflow_range (c : Z) (p : TimePeriod.t) (age : float) :
  let time := {| Time.count := Some c; Time.period := Some p |} in
  ((-999999999 * 86400 ≤ c * seconds_in p < 1000000000 * 86400)%Z →
   Time.exceeded time age
   = Ok (PrimFloat.ltb (float_of_int (c * seconds_in p)) age))
  ∧ (¬ (-999999999 * 86400 ≤ c * seconds_in p < 1000000000 * 86400)%Z →
     Time.exceeded time age = Raise OverflowError)
  ∧ ((-999999999 ≤ c ≤ 999999999)%Z → ∃ b, Time.exceeded time age = Ok b).
Proof.
  intros time. subst time. rewrite exceeded_configured. repeat split.
  - intros Hrange. by rewrite bool_decide_eq_true_2.
  - intros Hrange. by rewrite bool_decide_eq_false_2.
  - intros Hc. eexists. rewrite bool_decide_eq_true_2; [done|].
    destruct p; lia.
Qed.

Lemma X11_witness :
  Time.exceeded
    {| Time.count := Some 1000000000%Z; Time.period := Some TimePeriod.day |}
    0%float = Raise OverflowError.
Proof.
  apply (proj1 (proj2 (X11_exceeded_overflow_range
                         1000000000 TimePeriod.day 0%float))).
  lia.
Defined.

(** Whether [exceeded] raises does not depend on the age. *)
Lemma exceeded_cases (time : Time.t) :
  (∀ age, Time.exceeded time age = Ok false)
  ∨ (∀ age, Time.exceeded time age = Raise OverflowError)
  ∨ ∃ span : float, ∀ age, Time.exceeded time age = Ok (PrimFloat.ltb span age).
Proof.
  destruct time as [[c|] [p|]]; try (by left).
  - destruct (decide (-999999999 * 86400 ≤ c * seconds_in p
                      < 1000000000 * 86400)%Z) as [Hrange|Hrange].
    + right. right. exists (float_of_int (c * seconds_in p)). intros age.
      by rewrite exceeded_configured, bool_decide_eq_true_2.
    + right. left. intros age.
      by rewrite exceeded_configured, bool_decide_eq_false_2.
Qed.

Lemma SFltb_leb_trans (x y z : spec_float) :
  SFltb x y = true → SFleb y z = true → SFltb x z = true.
Proof.
  unfold SFltb, SFleb, SFcompare.
  destruct x as [[]| []| |[] mx ex], y as [[]| []| |[] my ey],
    z as [[]| []| |[] mz ez]; simpl; try done.
  all: destruct (Z.compare_spec ex ey), (Z.compare_spec ey ez),
         (Z.compare_spec ex ez); try done; try lia; subst.
  all: change (PosDef.Pos.compare_cont Eq mx my) with (Pos.compare mx my);
       change (PosDef.Pos.compare_cont Eq my mz) with (Pos.compare my mz);
       change (PosDef.Pos.compare_cont Eq mx mz) with (Pos.compare mx mz).
  all: destruct (Pos.compare_spec mx my), (Pos.compare_spec my mz),
         (Pos.compare_spec mx mz); simpl; try done; lia.
Qed.

Lemma ltb_leb_trans (x y z : float) :
  PrimFloat.ltb x y = true → PrimFloat.leb y z = true →
  PrimFloat.ltb x z = true.
Proof. rewrite !ltb_spec, leb_spec. apply SFltb_leb_trans. Qed.

Lemma ltb_nan (x : float) : PrimFloat.ltb x nan = false.
Proof.
  rewrite ltb_spec. change (Prim2SF nan) with S754_nan.
  unfold SFltb, SFcompare. by destruct (Prim2SF x).
Qed.

(** X12. [exceeded] is monotone in the age: a threshold that is exceeded at
    one age is exceeded at every age that is at least as large. *)
Theorem X12_exceeded_monotone (time : Time.t) (age age' : float) :
  PrimFloat.leb age age' = true →
  Time.exceeded time age = Ok true →
  Time.exceeded time age' = Ok true.
Proof.
  intros Hle.
  destruct (exceeded_cases time) as [Hno | [Hraise | [span Hspan]]].
  - by rewrite !Hno.
  - by rewrite !Hraise.
  - rewrite !Hspan. intros [= Hlt]. by rewrite (ltb_leb_trans _ _ _ Hlt Hle).
Qed.

Lemma X12_witness :
  Time.exceeded
    {| Time.count := Some 1%Z; Time.period := Some TimePeriod.hour |}
    7200%float = Ok true.
Proof.
  apply (X12_exceeded_monotone _ 3601%float 7200%float).
  - vm_compute. reflexivity.
  - vm_compute. reflexivity.
Defined.

Lemma and_exceeded_cases (x : option Time.t) :
  (∀ age, FreshnessThreshold.and_exceeded x age = Ok false)
  ∨ (∀ age, FreshnessThreshold.and_exceeded x age = Raise OverflowError)
  ∨ ∃ span : float,
      ∀ age, FreshnessThreshold.and_exceeded x age = Ok (PrimFloat.ltb span age).
Proof.
  destruct x as [time|]; simpl; [|by left].
  destruct (Time.__bool__ time); [|by left].
  apply exceeded_cases.
Qed.

(** X13. The status is monotone in the age, in the order Pass, Warn, Error:
    at a larger age an Error stays an Error, a Warn stays a Warn or becomes an
    Error, and a Pass at the larger age means a Pass at the smaller one. *)
Theorem X13_status_monotone (threshold : FreshnessThreshold.t)
  (age age' : float) :
  PrimFloat.leb age age' = true →
  (FreshnessThreshold.status threshold age = Ok FreshnessStatus.Error →
   FreshnessThreshold.status threshold age' = Ok FreshnessStatus.Error)
  ∧ (FreshnessThreshold.status threshold age = Ok FreshnessStatus.Warn →
     FreshnessThreshold.status threshold age' = Ok FreshnessStatus.Warn
     ∨ FreshnessThreshold.status threshold age' = Ok FreshnessStatus.Error)
  ∧ (FreshnessThreshold.status threshold age' = Ok FreshnessStatus.Pass →
     FreshnessThreshold.status threshold age = Ok FreshnessStatus.Pass).
Proof.
  intros Hle. unfold FreshnessThreshold.status.
  assert (∀ span, PrimFloat.ltb span age = true →
                  PrimFloat.ltb span age' = true) as Hmono
    by (intros span Hlt; exact (ltb_leb_trans _ _ _ Hlt Hle)).
  destruct (and_exceeded_cases (FreshnessThreshold.error_after threshold))
    as [He | [He | [espan He]]];
    destruct (and_exceeded_cases (FreshnessThreshold.warn_after threshold))
    as [Hw | [Hw | [wspan Hw]]];
    rewrite !He, ?Hw; simpl; rewrite ?Hw; simpl;
    try (pose proof (Hmono espan) as Hespan;
         destruct (PrimFloat.ltb espan age), (PrimFloat.ltb espan age');
         simpl; rewrite ?Hw; simpl);
    try (pose proof (Hmono wspan) as Hwspan;
         destruct (PrimFloat.ltb wspan age), (PrimFloat.ltb wspan age');
         simpl);
    repeat split; intros; try done; try (by auto);
    try (by (exfalso; auto using diff_false_true)).
Qed.

Lemma X13_witness :
  FreshnessThreshold.status example_threshold 90000%float
  = Ok FreshnessStatus.Warn
  ∨ FreshnessThreshold.status example_threshold 90000%float
    = Ok FreshnessStatus.Error.
Proof.
  apply (proj1 (proj2 (X13_status_monotone example_threshold
                         601%float 90000%float eq_refl)) eq_refl).
Defined.

(** X14. At an age that is not a number no threshold is exceeded: [exceeded]
    returns [False] and the status is [Pass], unless a span overflows. *)
Theorem X14_nan_age_passes :
  (∀ time : Time.t,
     Time.exceeded time nan = Ok false
     ∨ Time.exceeded time nan = Raise OverflowError)
  ∧ (∀ threshold : FreshnessThreshold.t,
       FreshnessThreshold.status threshold nan = Ok FreshnessStatus.Pass
       ∨ FreshnessThreshold.status threshold nan = Raise OverflowError).
Proof.
  split.
  - intros time.
    destruct (exceeded_cases time) as [H | [H | [span H]]]; rewrite H; auto.
    left. by rewrite ltb_nan.
  - intros threshold. unfold FreshnessThreshold.status.
    destruct (and_exceeded_cases (FreshnessThreshold.error_after threshold))
      as [He | [He | [espan He]]]; rewrite He, ?ltb_nan; simpl; auto;
      destruct (and_exceeded_cases (FreshnessThreshold.warn_after threshold))
      as [Hw | [Hw | [wspan Hw]]]; rewrite Hw, ?ltb_nan; simpl; auto.
Qed.

(** ** More on the materialization factory *)

Section materialization_factory_more.

Context {RuntimeConfig RelationFactory Materialization : Type}.

Local Abbreviation Strategy :=
  (MaterializationFactory.MaterializationClass
     RuntimeConfig RelationFactory Materialization).
Local Abbreviation make_from_runtime_config :=
  MaterializationFactory.make_from_runtime_config.
Local Abbreviation materialization_map :=
  MaterializationFactory.materialization_map.
Local Abbreviation relation_factory := MaterializationFactory.relation_factory.
Local Abbreviation from_runtime_config :=
  MaterializationFactory.from_runtime_config.
Local Abbreviation __init__ := MaterializationFactory.__init__.

Implicit Types (default parser : Strategy).
Implicit Types (factory : option RelationFactory).
Implicit Types (map : gmap MaterializationType.t Strategy).

(** X15. The constructor never leaves the factory with an empty map: for
    [None] and for the empty dict alike it installs the default map, which
    sends [MaterializedView] to the default strategy and nothing else; a map
    that is not empty is kept as it is.  The relation factory is stored as
    given. *)
Theorem X15_init_map_never_empty :
  (∀ default factory (map : option (gmap MaterializationType.t Strategy)),
     materialization_map (__init__ default factory map) ≠ ∅
     ∧ relation_factory (__init__ default factory map) = factory)
  ∧ (∀ default factory,
       __init__ default factory (Some ∅) = __init__ default factory None
       ∧ materialization_map (__init__ default factory None)
         = {[ MaterializationType.MaterializedView := default ]})
  ∧ (∀ default factory map,
       map ≠ ∅ → materialization_map (__init__ default factory (Some map)) = map).
Proof.
  split; [|split].
  - intros default factory [map|]; simpl; (split; [|done]).
    + destruct (Nat.eqb_spec (size map) 0) as [Hsize|Hsize].
      * apply insert_non_empty.
      * intros ->. by rewrite map_size_empty in Hsize.
    + apply insert_non_empty.
  - done.
  - intros default factory map Hne. simpl.
    destruct (Nat.eqb_spec (size map) 0) as [Hsize|Hsize]; [|done].
    by apply map_size_empty_iff in Hsize.
Qed.

(** X16. Where an exception of [make_from_runtime_config] comes from: it is
    the [AssertionError] of a mapped type in a factory without relation
    factory, or it is the exception that the mapped strategy raised.  A
    materialization that is returned is the one that the mapped strategy
    returned. *)
Theorem X16_make_outcome_provenance
  (self : MaterializationFactory.t RuntimeConfig RelationFactory Materialization)
  runtime_config materialization_type existing_relation_stub :
  let outcome :=
    (make_from_runtime_config runtime_config materialization_type
       existing_relation_stub self).1 in
  (∀ e, outcome = Raise e →
        (e = AssertionError
         ∧ relation_factory self = None
         ∧ is_Some (materialization_map self !! materialization_type))
        ∨ ∃ parser rf,
            materialization_map self !! materialization_type = Some parser
            ∧ relation_factory self = Some rf
            ∧ from_runtime_config parser runtime_config rf
                existing_relation_stub = Raise e)
  ∧ (∀ m, outcome = Ok (Some m) →
          ∃ parser rf,
            materialization_map self !! materialization_type = Some parser
            ∧ relation_factory self = Some rf
            ∧ from_runtime_config parser runtime_config rf
                existing_relation_stub = Ok m).
Proof.
  intros outcome. subst outcome.
  rewrite make_from_runtime_config_unfold. simpl.
  destruct (materialization_map self !! materialization_type) as [parser|];
    [|by split].
  destruct (relation_factory self) as [rf|].
  - destruct (from_runtime_config parser runtime_config rf
                existing_relation_stub) as [m|e] eqn:Hparser; simpl.
    + split; [done|]. intros ? [= <-]. by exists parser, rf.
    + split; [|done]. intros ? [= <-]. right. by exists parser, rf.
  - split; [|done]. intros ? [= <-]. left. repeat split. by eexists.
Qed.

End materialization_factory_more.

Lemma X15_witness :
  MaterializationFactory.materialization_map
    (MaterializationFactory.__init__ example_strategy (Some tt)
       (Some {[ MaterializationType.Table := example_strategy ]}))
  = {[ MaterializationType.Table := example_strategy ]}.
Proof.
  apply (proj2 (proj2 X15_init_map_never_empty)).
  apply insert_non_empty.
Defined.

Lemma X16_witness :
  ∃ parser rf,
    MaterializationFactory.materialization_map
      (MaterializationFactory.__init__ example_strategy (Some tt) None)
    !! MaterializationType.MaterializedView = Some parser
    ∧ MaterializationFactory.relation_factory
        (MaterializationFactory.__init__ example_strategy (Some tt) None)
      = Some rf
    ∧ MaterializationFactory.from_runtime_config parser tt rf None
      = Ok "create".
Proof.
  apply (proj2 (X16_make_outcome_provenance
                  (MaterializationFactory.__init__ example_strategy (Some tt) None)
                  tt MaterializationType.MaterializedView None) "create").
  reflexivity.
Defined.

(** ** More on the relation stubs *)

Lemma getitem_insert_ne (d : gmap string value) (k key : string) (x : value) :
  k ≠ key → getitem (VDict (<[k := x]> d)) key = getitem (VDict d) key.
Proof. intros Hne. simpl. by rewrite lookup_insert_ne. Qed.

Lemma getitem_not_dict (v : value) (key : string) :
  (∀ d, v ≠ VDict d) → getitem v key = Raise TypeError.
Proof. intros Hv. destruct v; try done. by destruct (Hv d). Qed.

(** Following a constructor that has returned through one of its
    subscripts. *)
Ltac read_getitem H d key :=
  let v := fresh "v" in
  let Hv := fresh "Hv" in
  let Hget := fresh "Hget" in
  destruct (getitem_dict_cases d key) as [(v & Hv & Hget) | [Hv Hget]];
  rewrite Hget in H; rewrite ?bind_Ok, ?bind_Raise in H; cbv beta in H;
  [|try discriminate H].

Section stubs_more.

Context `{!DatabaseRelation.FromDict}.

(** X17. What a successful [from_dict] has read.  The argument was a dict
    with every key that the constructor subscripts; the fields of the result
    are the entries under these keys, its class is the stub class and its
    parser field the stub class of the level below; the schema of a relation
    stub is what [SchemaRelationStub.from_dict] returns for the [schema]
    entry, and the database of a schema stub is what
    [DatabaseRelation.from_dict] returns for the [database] entry. *)
Theorem X17_from_dict_success_shape :
  (∀ v database,
     DatabaseRelationStub.from_dict v = Ok database →
     ∃ d, v = VDict d
          ∧ d !! "name" = Some (DatabaseRelation.name database)
          ∧ d !! "render" = Some (DatabaseRelation.render database)
          ∧ DatabaseRelation.type_self database = DatabaseRelationStub_cls)
  ∧ (∀ v schema,
       SchemaRelationStub.from_dict v = Ok schema →
       ∃ d database_dict,
         v = VDict d
         ∧ d !! "name" = Some (SchemaRelationStub.name schema)
         ∧ d !! "database" = Some database_dict
         ∧ DatabaseRelation.from_dict database_dict
           = Ok (SchemaRelationStub.database schema)
         ∧ d !! "render" = Some (SchemaRelationStub.render schema)
         ∧ SchemaRelationStub.type_self schema = SchemaRelationStub_cls
         ∧ SchemaRelationStub.DatabaseParser schema = DatabaseRelationStub_cls)
  ∧ (∀ v relation,
       RelationStub.from_dict v = Ok relation →
       ∃ d schema_dict,
         v = VDict d
         ∧ d !! "name" = Some (RelationStub.name relation)
         ∧ d !! "schema" = Some schema_dict
         ∧ SchemaRelationStub.from_dict schema_dict
           = Ok (RelationStub.schema relation)
         ∧ d !! "render" = Some (RelationStub.render relation)
         ∧ d !! "type" = Some (RelationStub.type relation)
         ∧ d !! "can_be_renamed" = Some (RelationStub.can_be_renamed relation)
         ∧ RelationStub.type_self relation = RelationStub_cls
         ∧ RelationStub.SchemaParser relation = SchemaRelationStub_cls).
Proof.
  split; [|split].
  - intros v database Hok. destruct v as [| | | | |d]; try discriminate Hok.
    exists d. unfold DatabaseRelationStub.from_dict in Hok.
    read_getitem Hok d "name". read_getitem Hok d "render".
    by injection Hok as <-.
  - intros v schema Hok. destruct v as [| | | | |d]; try discriminate Hok.
    exists d. unfold SchemaRelationStub.from_dict in Hok.
    read_getitem Hok d "name". read_getitem Hok d "database".
    destruct (DatabaseRelation.from_dict v0) as [database|e] eqn:Hdb;
      [|discriminate Hok].
    rewrite bind_Ok in Hok. read_getitem Hok d "render".
    exists v0. by injection Hok as <-.
  - intros v relation Hok. destruct v as [| | | | |d]; try discriminate Hok.
    exists d. unfold RelationStub.from_dict in Hok.
    read_getitem Hok d "name". read_getitem Hok d "schema".
    destruct (SchemaRelationStub.from_dict v0) as [schema|e] eqn:Hschema;
      [|discriminate Hok].
    rewrite bind_Ok in Hok. read_getitem Hok d "render".
    read_getitem Hok d "type". read_getitem Hok d "can_be_renamed".
    exists v0. by injection Hok as <-.
Qed.

(** X18. The constructors ignore the keys that they do not subscript: adding
    or replacing the entry of any other key in the configuration dict does not
    change what they return or raise. *)
Theorem X18_from_dict_ignores_other_keys
  (d : gmap string value) (k : string) (x : value) :
  (k ∉ ["name"; "render"] →
   DatabaseRelationStub.from_dict (VDict (<[k := x]> d))
   = DatabaseRelationStub.from_dict (VDict d))
  ∧ (k ∉ ["name"; "database"; "render"] →
     SchemaRelationStub.from_dict (VDict (<[k := x]> d))
     = SchemaRelationStub.from_dict (VDict d))
  ∧ (k ∉ ["name"; "schema"; "render"; "type"; "can_be_renamed"] →
     RelationStub.from_dict (VDict (<[k := x]> d))
     = RelationStub.from_dict (VDict d)).
Proof.
  split; [|split]; intros Hk;
    rewrite !not_elem_of_cons in Hk; destruct_and!.
  - unfold DatabaseRelationStub.from_dict.
    by rewrite !getitem_insert_ne by done.
  - unfold SchemaRelationStub.from_dict.
    by rewrite !getitem_insert_ne by done.
  - unfold RelationStub.from_dict.
    by rewrite !getitem_insert_ne by done.
Qed.

(** X19. Why a stub constructor fails.  It raises [TypeError] for an
    argument that is not a dict and [KeyError] for a dict without one of its
    keys, or it passes on the exception of the constructor that it calls for
    the nested entry.  The [isinstance] assertions never fail: an
    [AssertionError] can only come from [DatabaseRelation.from_dict]. *)
Theorem X19_from_dict_failures :
  (∀ v e,
     DatabaseRelationStub.from_dict v = Raise e →
     (e = TypeError ∧ ∀ d, v ≠ VDict d)
     ∨ ∃ d k, v = VDict d ∧ d !! k = None ∧ e = KeyError k)
  ∧ (∀ v e,
       SchemaRelationStub.from_dict v = Raise e →
       (e = TypeError ∧ ∀ d, v ≠ VDict d)
       ∨ (∃ d k, v = VDict d ∧ d !! k = None ∧ e = KeyError k)
       ∨ ∃ d database_dict,
           v = VDict d ∧ d !! "database" = Some database_dict
           ∧ DatabaseRelation.from_dict database_dict = Raise e)
  ∧ (∀ v e,
       RelationStub.from_dict v = Raise e →
       (e = TypeError ∧ ∀ d, v ≠ VDict d)
       ∨ (∃ d k, v = VDict d ∧ d !! k = None ∧ e = KeyError k)
       ∨ ∃ d schema_dict,
           v = VDict d ∧ d !! "schema" = Some schema_dict
           ∧ SchemaRelationStub.from_dict schema_dict = Raise e).
Proof.
  split; [|split]; intros v e Hraise;
    (destruct v as [| | | | |d];
     [left; injection Hraise as <-; by split..|]).
  - right. exists d. unfold DatabaseRelationStub.from_dict in Hraise.
    read_getitem Hraise d "name"; [|injection Hraise as <-; by exists "name"].
    read_getitem Hraise d "render";
      [|injection Hraise as <-; by exists "render"].
    discriminate Hraise.
  - right. unfold SchemaRelationStub.from_dict in Hraise.
    read_getitem Hraise d "name";
      [|injection Hraise as <-; left; by exists d, "name"].
    read_getitem Hraise d "database";
      [|injection Hraise as <-; left; by exists d, "database"].
    destruct (DatabaseRelation.from_dict v0) as [database|e'] eqn:Hdb;
      [|injection Hraise as <-; right; by exists d, v0].
    rewrite bind_Ok in Hraise.
    read_getitem Hraise d "render";
      [|injection Hraise as <-; left; by exists d, "render"].
    discriminate Hraise.
  - right. unfold RelationStub.from_dict in Hraise.
    read_getitem Hraise d "name";
      [|injection Hraise as <-; left; by exists d, "name"].
    read_getitem Hraise d "schema";
      [|injection Hraise as <-; left; by exists d, "schema"].
    destruct (SchemaRelationStub.from_dict v0) as [schema|e'] eqn:Hschema;
      [|injection Hraise as <-; right; by exists d, v0].
    rewrite bind_Ok in Hraise.
    read_getitem Hraise d "render";
      [|injection Hraise as <-; left; by exists d, "render"].
    read_getitem Hraise d "type";
      [|injection Hraise as <-; left; by exists d, "type"].
    read_getitem Hraise d "can_be_renamed";
      [|injection Hraise as <-; left; by exists d, "can_be_renamed"].
    discriminate Hraise.
Qed.

End stubs_more.

(** ** [UnparsedEntity.validate] *)

(** What the loop makes of an identifier: it is a dict; with an entity that
    is not [None] it stays as it is, otherwise it has a name and gets that as
    its entity. *)
Local Abbreviation entity_set x x' :=
  (∃ d, x = RDict d
        ∧ ((UnparsedEntity.get_is_None d "entity" = false ∧ x' = RDict d)
           ∨ (UnparsedEntity.get_is_None d "entity" = true
              ∧ ∃ name, d !! "name" = Some name
                        ∧ x' = RDict (<["entity" := name]> d)))).

Lemma set_entity_Return data x x' :
  UnparsedEntity.set_entity data x = Return x' ↔ entity_set x x'.
Proof.
  split.
  - destruct x as [| | | | |d]; try done. simpl. intros Hset. exists d.
    split; [done|].
    destruct (UnparsedEntity.get_is_None d "entity"); simplify_eq; [|by left].
    right. split; [done|].
    destruct (d !! "name") as [name|]; simplify_eq; [by exists name|].
    by destruct (raw_getitem data "name").
  - intros (d & -> & [[Hentity ->] | (Hentity & name & Hname & ->)]); simpl;
      rewrite Hentity; [done|]. by rewrite Hname.
Qed.

Lemma set_entities_Return data l l' :
  UnparsedEntity.set_entities data l = (Return tt, l') ↔
  Forall2 (fun x x' => entity_set x x') l l'.
Proof.
  revert l'. induction l as [|x l IH]; intros l'; simpl.
  - split; [by intros [= <-]; constructor|by inversion 1].
  - split.
    + destruct (UnparsedEntity.set_entity data x) as [x'|e] eqn:Hx; [|done].
      destruct (UnparsedEntity.set_entities data l) as [outcome rest] eqn:Hl.
      intros [= -> <-]. constructor; [by apply (set_entity_Return data)|].
      by apply IH.
    + inversion 1 as [|? x' ? rest Hx Hrest]; subst.
      apply (set_entity_Return data) in Hx. rewrite Hx.
      apply IH in Hrest. by rewrite Hrest.
Qed.

Lemma entity_set_has_entity x x' :
  entity_set x x' →
  ∃ d', x' = RDict d' ∧ is_Some (d' !! "entity") ∧ entity_set x' x'.
Proof.
  intros (d & -> & [[Hentity ->] | (Hentity & name & Hname & ->)]).
  - exists d. split; [done|]. split.
    + unfold UnparsedEntity.get_is_None in Hentity.
      by destruct (d !! "entity").
    + exists d. split; [done|]. by left.
  - exists (<["entity" := name]> d). split; [done|].
    split; [by rewrite lookup_insert_eq|].
    eexists. split; [done|].
    unfold UnparsedEntity.get_is_None. rewrite lookup_insert_eq.
    destruct name; try (by left).
    right. split; [done|]. exists RNone.
    rewrite lookup_insert_ne by done. by rewrite insert_insert_eq.
Qed.

Section entity.

Context (super_validate : raw → Outcome unit).

Local Abbreviation validate := (UnparsedEntity.validate super_validate).

Lemma validate_Return_inv
  (d : gmap string raw) (identifiers : list raw) (data' : raw) :
  d !! "identifiers" = Some (RList identifiers) →
  validate (RDict d) = (Return tt, data') →
  ∃ identifiers',
    data' = RDict (<["identifiers" := RList identifiers']> d)
    ∧ Forall2 (fun x x' => entity_set x x') identifiers identifiers'.
Proof.
  intros Hids. unfold UnparsedEntity.validate.
  destruct (super_validate (RDict d) ≫= _) as [[]|e]; [|done].
  simpl. rewrite Hids.
  destruct (UnparsedEntity.set_entities (RDict d) identifiers)
    as [outcome identifiers'] eqn:Hloop.
  intros [= -> <-]. exists identifiers'. split; [done|].
  by apply set_entities_Return in Hloop.
Qed.


(** X21. [validate] is idempotent on what it accepts: run again on the data
    that it has left, it accepts them, given that the schema validation does,
    and leaves them as they are. *)
Theorem X21_validate_idempotent
  (d : gmap string raw) (identifiers : list raw) (data' : raw) :
  d !! "identifiers" = Some (RList identifiers) →
  validate (RDict d) = (Return tt, data') →
  super_validate data' = Return tt →
  validate data' = (Return tt, data').
Proof.
  intros Hids Hfirst Hsuper.
  destruct (validate_Return_inv _ _ _ Hids Hfirst)
    as (identifiers' & -> & Hset).
  unfold UnparsedEntity.validate in *. rewrite Hsuper.
  destruct (super_validate (RDict d)) as [[]|e]; [|done].
  simpl in Hfirst |- *.
  assert (UnparsedEntity.check_model
            (RDict (<["identifiers" := RList identifiers']> d))
          = UnparsedEntity.check_model (RDict d)) as ->.
  { unfold UnparsedEntity.check_model. simpl.
    by rewrite !lookup_insert_ne by done. }
  destruct (UnparsedEntity.check_model (RDict d)) as [[]|e]; [|done].
  rewrite lookup_insert_eq.
  assert (UnparsedEntity.set_entities
            (RDict (<["identifiers" := RList identifiers']> d)) identifiers'
          = (Return tt, identifiers')) as ->.
  { apply set_entities_Return. clear -Hset.
    induction Hset as [|x x' l l' Hx _ IH]; [constructor|].
    constructor; [|done].
    by destruct (entity_set_has_entity _ _ Hx) as (_ & _ & _ & ?). }
  by rewrite insert_insert_eq.
Qed.

(** X22. An entity whose [model] is a string without the text [ref(']
    is rejected with a [ParsingError] before any identifier is looked at: the
    data are left as they were.  The same holds when the schema validation
    rejects the data. *)
Theorem X22_validate_rejects_untouched
  (d : gmap string raw) (model : string) (name : raw) :
  (∀ e, super_validate (RDict d) = Throw e →
        validate (RDict d) = (Throw e, RDict d))
  ∧ (super_validate (RDict d) = Return tt →
     d !! "model" = Some (RStr model) →
     d !! "name" = Some name →
     String.index 0 "ref('" model = None →
     validate (RDict d)
     = (Throw (ParsingError (entity_improper_ref name)), RDict d)).
Proof.
  split.
  - intros e Hsuper. unfold UnparsedEntity.validate. by rewrite Hsuper.
  - intros Hsuper Hmodel Hname Hindex.
    unfold UnparsedEntity.validate, UnparsedEntity.check_model.
    rewrite Hsuper. simpl. rewrite Hmodel. simpl. rewrite Hindex, Hname.
    rewrite bool_decide_eq_false_2; [done|]. by intros [? [=]].
Qed.

End entity.


Lemma X21_witness :
  let data' :=
    snd (UnparsedEntity.validate example_super_validate (RDict example_entity)) in
  UnparsedEntity.validate example_super_validate data' = (Return tt, data').
Proof.
  apply (X21_validate_idempotent example_super_validate example_entity
           [RDict {[ "name" := RStr "order_id"; "entity" := RStr "order" ]};
            RDict {[ "name" := RStr "customer_id" ]}]).
  - reflexivity.
  - vm_compute. reflexivity.
  - reflexivity.
Defined.

Lemma X22_witness :
  UnparsedEntity.validate example_super_validate
    (RDict (<["model" := RStr "fct_orders"]> example_entity))
  = (Throw (ParsingError (entity_improper_ref (RStr "orders"))),
     RDict (<["model" := RStr "fct_orders"]> example_entity)).
Proof.
  apply (proj2 (X22_validate_rejects_untouched example_super_validate
                  (<["model" := RStr "fct_orders"]> example_entity)
                  "fct_orders" (RStr "orders")));
    reflexivity.
Defined.

(** The example entity: the second identifier gets its name as entity. *)
Example validate_entity_runs :
  UnparsedEntity.validate example_super_validate (RDict example_entity)
  = (Return tt,
     RDict (<["identifiers" :=
               RList [RDict {[ "name" := RStr "order_id";
                               "entity" := RStr "order" ]};
                      RDict {[ "name" := RStr "customer_id";
                               "entity" := RStr "customer_id" ]}]]>
              example_entity)).
Proof. by vm_compute. Qed.

(** ** The further properties on concrete inputs *)

Lemma X1_witness :
  Maturity.__lt__ Maturity.low (Maturity.Member Maturity.high)
  = Return (Maturity.Bool true).
Proof.
  pose proof X1_Maturity_lt_strict_total_order as H. cbv zeta in H.
  destruct H as (Hlow & Hmedium & _ & _ & Htrans & _).
  exact (Htrans Maturity.low Maturity.medium Maturity.high Hlow Hmedium).
Defined.

Lemma X7_witness :
  is_Some
    (UnparsedSourceTableDefinition.__post_serialize__
       (H := example_super_post_serialize) example_source_table ∅
     !! "freshness").
Proof.
  apply (proj1 (X7_post_serialize_freshness
                  (H := example_super_post_serialize)
                  (H0 := fun _ dct => dct))).
  reflexivity.
Defined.

Lemma X17_witness :
  ∃ d schema_dict,
    VDict example_relation_dict = VDict d
    ∧ d !! "name" = Some (VStr "mv1")
    ∧ d !! "schema" = Some schema_dict
    ∧ SchemaRelationStub.from_dict (H := spec_DatabaseRelation_from_dict)
        schema_dict
      = Ok {| SchemaRelationStub.type_self := SchemaRelationStub_cls;
              SchemaRelationStub.name := VStr "public";
              SchemaRelationStub.database :=
                {| DatabaseRelation.type_self := DatabaseRelation_cls;
                   DatabaseRelation.name := VStr "analytics";
                   DatabaseRelation.render := VObject 1 |};
              SchemaRelationStub.render := VObject 1;
              SchemaRelationStub.DatabaseParser := DatabaseRelationStub_cls |}
    ∧ d !! "render" = Some (VObject 1)
    ∧ d !! "type" = Some (VStr "materialized_view")
    ∧ d !! "can_be_renamed" = Some (VBool true)
    ∧ RelationStub_cls = RelationStub_cls
    ∧ SchemaRelationStub_cls = SchemaRelationStub_cls.
Proof.
  apply (proj2 (proj2 (X17_from_dict_success_shape
                         (H := spec_DatabaseRelation_from_dict)))
           (VDict example_relation_dict)
           {| RelationStub.type_self := RelationStub_cls;
              RelationStub.name := VStr "mv1";
              RelationStub.schema :=
                {| SchemaRelationStub.type_self := SchemaRelationStub_cls;
                   SchemaRelationStub.name := VStr "public";
                   SchemaRelationStub.database :=
                     {| DatabaseRelation.type_self := DatabaseRelation_cls;
                        DatabaseRelation.name := VStr "analytics";
                        DatabaseRelation.render := VObject 1 |};
                   SchemaRelationStub.render := VObject 1;
                   SchemaRelationStub.DatabaseParser :=
                     DatabaseRelationStub_cls |};
              RelationStub.render := VObject 1;
              RelationStub.type := VStr "materialized_view";
              RelationStub.can_be_renamed := VBool true;
              RelationStub.SchemaParser := SchemaRelationStub_cls |}).
  reflexivity.
Defined.

Lemma X18_witness :
  RelationStub.from_dict (H := spec_DatabaseRelation_from_dict)
    (VDict (<["comment" := VStr "nightly"]> example_relation_dict))
  = RelationStub.from_dict (H := spec_DatabaseRelation_from_dict)
      (VDict example_relation_dict).
Proof.
  apply (proj2 (proj2 (X18_from_dict_ignores_other_keys
                         (H := spec_DatabaseRelation_from_dict)
                         example_relation_dict "comment" (VStr "nightly")))).
  compute_done.
Defined.

Lemma X19_witness :
  (TypeError = TypeError ∧ ∀ d, VStr "public" ≠ VDict d)
  ∨ (∃ d k, VStr "public" = VDict d ∧ d !! k = None ∧ TypeError = KeyError k)
  ∨ ∃ d database_dict,
      VStr "public" = VDict d ∧ d !! "database" = Some database_dict
      ∧ spec_DatabaseRelation_from_dict database_dict = Raise TypeError.
Proof.
  apply (proj1 (proj2 (X19_from_dict_failures
                         (H := spec_DatabaseRelation_from_dict)))
           (VStr "public") TypeError).
  reflexivity.
Defined.

(** Of two tables with one name the first is found; the patch dict of a table
    still has its name. *)
Example patches_run :
  SourcePatch.get_table_named example_source_patch "orders"
  = Some (example_table_patch "orders" "first")
  ∧ SourcePatch.get_table_named example_source_patch "payments" = None
  ∧ SourceTablePatch.to_patch_dict (H := example_table_to_dict)
      (example_table_patch "orders" "first")
    = {[ "name" := RStr "orders";
         "description" := RStr "first";
         "quoting" := RDict ∅;
         "freshness" := RNone ]}.
Proof. repeat split. Qed.
